(** * FreeCAD Render workbench: the Cycles exporter ([renderers/Cycles.py])

    A shallow embedding of the four scene formatters ([write_camera],
    [write_object], [write_pointlight], [write_arealight]) and of [render],
    together with the fragment of the Python runtime and of the FreeCAD host
    API they run on, and the properties of the exporter stated on the text
    and on the effects it produces. *)

From Stdlib Require Import String Ascii List ZArith Bool Lia PrimFloat.
From Stdlib Require Import DecimalString Floats.FloatOps Floats.SpecFloat.
Import ListNotations.
Open Scope string_scope.

Set Warnings "-register-all".

(** ** Outcomes of Python code *)

(** The exceptions the modelled fragment can raise. [Unsupported] marks input
    that leaves the fragment of the runtime modelled here (format
    specifications, the textual form of composite objects); no template of
    the exporter reaches it. *)
Inductive exn : Type :=
  | IndexError
  | KeyError
  | AttributeError
  | ValueError
  | Unsupported.

Inductive result (A : Type) : Type :=
  | Ok (a : A)
  | Raise (e : exn).

Arguments Ok {A} a.
Arguments Raise {A} e.

(** Sequencing, for failing code and for code with effects alike. *)
Class Monad (M : Type -> Type) : Type := {
  ret : forall {A : Type}, A -> M A;
  bind : forall {A B : Type}, M A -> (A -> M B) -> M B
}.

Notation "x <- m ;; k" := (bind m (fun x => k))
  (at level 61, m at next level, right associativity).
Notation "m ;;; k" := (bind m (fun _ => k))
  (at level 61, right associativity).

#[export] Instance result_monad : Monad result := {
  ret := @Ok;
  bind := fun A B r k =>
    match r with
    | Ok a => k a
    | Raise e => Raise e
    end
}.

Definition rmap {A B : Type} (f : A -> B) (r : result A) : result B :=
  a <- r ;; Ok (f a).

(** A list comprehension over a body that can raise. *)
Fixpoint mapM {A B : Type} (f : A -> result B) (l : list A) : result (list B) :=
  match l with
  | [] => Ok []
  | a :: l' => b <- f a ;; bs <- mapM f l' ;; Ok (b :: bs)
  end.

(** ** The Python runtime *)

Module Py.

(** The characters the text of a float can be made of: digits, the point,
    the exponent mark and signs, and the letters of [inf] and [nan]. *)
Inductive fchar : Type :=
  | F0 | F1 | F2 | F3 | F4 | F5 | F6 | F7 | F8 | F9
  | Fdot | Fexp | Fplus | Fminus
  | Fi | Fn | Ff | Fa.

Definition ascii_of_fchar (c : fchar) : ascii :=
  match c with
  | F0 => "0" | F1 => "1" | F2 => "2" | F3 => "3" | F4 => "4"
  | F5 => "5" | F6 => "6" | F7 => "7" | F8 => "8" | F9 => "9"
  | Fdot => "." | Fexp => "e" | Fplus => "+" | Fminus => "-"
  | Fi => "i" | Fn => "n" | Ff => "f" | Fa => "a"
  end%char.

(** [repr] of a float is the interpreter's own (shortest round-trip
    digits); it is taken as given, through the characters it writes. *)
Class FloatRepr : Type := float_repr : float -> list fchar.

Definition float_str `{FloatRepr} (f : float) : string :=
  string_of_list_ascii (map ascii_of_fchar (float_repr f)).

(** One such function: the shortest digits that read back as the same
    float (the nearest to it when several do), laid out as [repr] lays
    them out. It is what the examples below are run with. *)
Module Repr.
#[local] Open Scope Z_scope.
#[local] Open Scope list_scope.

Definition digit (d : Z) : fchar :=
  match d with
  | 0 => F0 | 1 => F1 | 2 => F2 | 3 => F3 | 4 => F4
  | 5 => F5 | 6 => F6 | 7 => F7 | 8 => F8 | _ => F9
  end.

(** The decimal digits of [n], most significant first, in front of [acc]. *)
Fixpoint digits_fuel (fuel : nat) (n : Z) (acc : list fchar) : list fchar :=
  match fuel with
  | O => acc
  | S fuel' =>
      if n <? 10 then digit n :: acc
      else digits_fuel fuel' (n / 10) (digit (n mod 10) :: acc)
  end.

Definition digits (n : Z) : list fchar :=
  digits_fuel (S (Z.to_nat (Z.log2 n))) n [].

Fixpoint strip_fuel (fuel : nat) (n : Z) : Z :=
  match fuel with
  | O => n
  | S fuel' =>
      if (0 <? n) && (n mod 10 =? 0) then strip_fuel fuel' (n / 10) else n
  end.

(** A positive rational, numerator over denominator. *)
Definition scaled (v : Z) (k : Z) : Z * Z :=
  if 0 <=? k then (v * 10 ^ k, 1) else (v, 10 ^ (- k)).

(** [cmp_dec c k v a b]: how c * 10^k compares with v * a / b. *)
Definition cmp_dec (c k v a b : Z) : comparison :=
  let (n, d) := scaled c k in
  (n * b ?= v * a * d).

(** The float is m * 2^e. In units of a quarter of its last place it is
    4m, and the reals that round to it lie between [lo] and [hi]. *)
Record interval : Type := {
  mid : Z; lo : Z; hi : Z; closed : bool;
  unum : Z; uden : Z
}.

Definition interval_of (m e : Z) : interval :=
  {| mid := 4 * m;
     lo := if (m =? 2 ^ 52) && (-1074 <? e) then 4 * m - 1 else 4 * m - 2;
     hi := 4 * m + 2;
     closed := Z.even m;
     unum := if 2 <=? e then 2 ^ (e - 2) else 1;
     uden := if 2 <=? e then 1 else 2 ^ (2 - e) |}.

Definition inside (i : interval) (c k : Z) : bool :=
  match cmp_dec c k (lo i) (unum i) (uden i) with
  | Gt => true
  | Eq => closed i
  | Lt => false
  end &&
  match cmp_dec c k (hi i) (unum i) (uden i) with
  | Lt => true
  | Eq => closed i
  | Gt => false
  end.

(** floor of mid * unum / uden / 10^k *)
Definition quotient (i : interval) (k : Z) : Z :=
  if 0 <=? k then (mid i * unum i) / (uden i * 10 ^ k)
  else (mid i * unum i * 10 ^ (- k)) / uden i.

(** The exponent p with 10^p <= value < 10^(p+1). *)
Definition magnitude (i : interval) : Z :=
  let est := ((Z.log2 (mid i) + Z.log2 (unum i) - Z.log2 (uden i)) * 30103)
             / 100000 - 1 in
  let up (p : Z) := if 10 <=? quotient i p then p + 1 else p in
  up (up (up est)).

(** Whether the value lies nearer to c * 10^k than to (c + 1) * 10^k:
    below their midpoint, or on it with c even. *)
Definition nearer_low (i : interval) (c k : Z) : bool :=
  match cmp_dec (2 * c + 1) k (2 * mid i) (unum i) (uden i) with
  | Lt => false
  | Eq => Z.even c
  | Gt => true
  end.

Fixpoint shortest (fuel : nat) (n : Z) (i : interval) (p : Z) : Z * Z :=
  let k := p - n + 1 in
  let c := quotient i k in
  match fuel with
  | O => (c, k)
  | S fuel' =>
      let l := inside i c k in
      let h := inside i (c + 1) k in
      if l && h then (if nearer_low i c k then (c, k) else (c + 1, k))
      else if l then (c, k)
      else if h then (c + 1, k)
      else shortest fuel' (n + 1) i p
  end.

Fixpoint zeros (n : nat) : list fchar :=
  match n with O => [] | S n' => F0 :: zeros n' end.

Definition exponent (x : Z) : list fchar :=
  (if (x <? 0)%Z then Fminus else Fplus) ::
  (if Z.abs x <? 10 then [F0] else []) ++ digits (Z.abs x).

(** Fixed or exponent notation, as [repr] chooses between them. *)
Definition layout (ds : list fchar) (decpt : Z) : list fchar :=
  let n := Z.of_nat (List.length ds) in
  if (decpt <=? -4) || (16 <? decpt) then
    match ds with
    | [] => []
    | d :: [] => d :: Fexp :: exponent (decpt - 1)
    | d :: ds' => d :: Fdot :: ds' ++ Fexp :: exponent (decpt - 1)
    end
  else if decpt <=? 0 then
    F0 :: Fdot :: zeros (Z.to_nat (- decpt)) ++ ds
  else if n <=? decpt then
    ds ++ zeros (Z.to_nat (decpt - n)) ++ [Fdot; F0]
  else
    firstn (Z.to_nat decpt) ds ++ Fdot :: skipn (Z.to_nat decpt) ds.

Definition finite (m e : Z) : list fchar :=
  let i := interval_of m e in
  let (c, k) := shortest 17 1 i (magnitude i) in
  let c' := strip_fuel 20 c in
  let ds := digits c' in
  layout ds (Z.of_nat (List.length (digits c)) + k).

Definition sign (s : bool) : list fchar := if s then [Fminus] else [].

Definition repr (f : float) : list fchar :=
  match Prim2SF f with
  | S754_zero s => sign s ++ [F0; Fdot; F0]
  | S754_infinity s => sign s ++ [Fi; Fn; Ff]
  | S754_nan => [Fn; Fa; Fn]
  | S754_finite s m e => sign s ++ finite (Zpos m) e
  end.

End Repr.

Definition shortest_repr : FloatRepr := Repr.repr.

(** [str] of an int: decimal digits, with a minus sign below zero. *)
Definition int_str (z : Z) : string :=
  NilZero.string_of_int (Z.to_int z).

(** Objects as far as the templates look into them. *)
Inductive value : Type :=
  | VStr (s : string)
  | VInt (z : Z)
  | VFloat (f : float)
  | VTuple (items : list value)
  | VObj (attrs : list (string * value)).

(** [format(v, "")] on a scalar. *)
Definition str_value `{FloatRepr} (v : value) : result string :=
  match v with
  | VStr s => Ok s
  | VInt z => Ok (int_str z)
  | VFloat f => Ok (float_str f)
  | VTuple _ | VObj _ => Raise Unsupported
  end.

Fixpoint lookup {A : Type} (k : string) (l : list (string * A)) : option A :=
  match l with
  | [] => None
  | (k', a) :: l' => if (k =? k')%string then Some a else lookup k l'
  end.

(** [sep.join(l)] *)
Definition join (sep : string) (l : list string) : string :=
  String.concat sep l.

(** *** [str.format]

    The replacement-field grammar without conversions and format
    specifications: [{}], [{0}], [{name}], each followed by any number of
    [.attr] and [[index]] lookups; [{{] and [}}] are the escaped braces. *)

Inductive item : Type :=
  | Lit (s : string)
  | Field (f : string).

(** [s + c] for a single character [c]. *)
Fixpoint snoc (s : string) (c : ascii) : string :=
  match s with
  | "" => String c ""
  | String a s' => String a (snoc s' c)
  end.

Definition lit_item (lit : string) (k : list item) : list item :=
  match lit with
  | "" => k
  | _ => Lit lit :: k
  end.

(** Splitting a template into literal text and replacement fields. [lit] is
    the literal text read since the last field, [fld] the text of the field
    being read, if any. *)
Fixpoint parse (t : string) (lit : string) (fld : option string)
  : result (list item) :=
  match t with
  | "" =>
      match fld with
      | None => Ok (lit_item lit [])
      | Some _ => Raise ValueError
      end
  | String c t' =>
      match fld with
      | None =>
          if (c =? "{")%char then
            match t' with
            | String "{"%char t'' => parse t'' (snoc lit "{") None
            | _ => rmap (lit_item lit) (parse t' "" (Some ""))
            end
          else if (c =? "}")%char then
            match t' with
            | String "}"%char t'' => parse t'' (snoc lit "}") None
            | _ => Raise ValueError
            end
          else parse t' (snoc lit c) None
      | Some f =>
          if (c =? "}")%char then rmap (cons (Field f)) (parse t' "" None)
          else if (c =? "{")%char then Raise ValueError
          else if ((c =? ":") || (c =? "!"))%char then Raise Unsupported
          else parse t' lit (Some (snoc f c))
      end
  end.

Inductive accessor : Type :=
  | Attr (name : string)
  | Index (i : string).

(** Where the reader of a field name stands. *)
Inductive fstate : Type :=
  | InName
  | InAttr (a : string)
  | InIndex (i : string)
  | AfterIndex.

(** A field name: the argument name, then the lookups. *)
Fixpoint scan_field (s : string) (st : fstate) (name : string)
  : result (string * list accessor) :=
  match s with
  | "" =>
      match st with
      | InName => Ok (name, [])
      | InAttr "" => Raise ValueError
      | InAttr a => Ok (name, [Attr a])
      | InIndex _ => Raise ValueError
      | AfterIndex => Ok (name, [])
      end
  | String c s' =>
      let start :=
        if (c =? ".")%char then Some (InAttr "")
        else if (c =? "[")%char then Some (InIndex "")
        else None in
      match st with
      | InName =>
          match start with
          | Some st' => scan_field s' st' name
          | None => scan_field s' InName (snoc name c)
          end
      | InAttr a =>
          match start with
          | Some st' =>
              match a with
              | "" => Raise ValueError
              | _ => rmap (fun r => (fst r, Attr a :: snd r))
                          (scan_field s' st' name)
              end
          | None => scan_field s' (InAttr (snoc a c)) name
          end
      | InIndex i =>
          if (c =? "]")%char then
            match i with
            | "" => Raise ValueError
            | _ => rmap (fun r => (fst r, Index i :: snd r))
                        (scan_field s' AfterIndex name)
            end
          else scan_field s' (InIndex (snoc i c)) name
      | AfterIndex =>
          match start with
          | Some st' => scan_field s' st' name
          | None => Raise ValueError
          end
      end
  end.

Definition is_digit (c : ascii) : bool :=
  (48 <=? nat_of_ascii c)%nat && (nat_of_ascii c <=? 57)%nat.

Fixpoint all_digits (s : string) : bool :=
  match s with
  | "" => true
  | String c s' => is_digit c && all_digits s'
  end.

(** The number a string of digits writes. *)
Fixpoint nat_of_digits (s : string) (acc : nat) : nat :=
  match s with
  | "" => acc
  | String c s' => nat_of_digits s' (10 * acc + (nat_of_ascii c - 48))
  end.

Definition is_number (s : string) : bool :=
  negb (s =? "") && all_digits s.

Definition get (v : value) (a : accessor) : result value :=
  match a, v with
  | Attr name, VObj attrs =>
      match lookup name attrs with
      | Some w => Ok w
      | None => Raise AttributeError
      end
  | Index i, VTuple items =>
      if is_number i then
        match nth_error items (nat_of_digits i 0) with
        | Some w => Ok w
        | None => Raise IndexError
        end
      else Raise Unsupported
  | _, _ => Raise Unsupported
  end.

Fixpoint get_all (v : value) (l : list accessor) : result value :=
  match l with
  | [] => Ok v
  | a :: l' => w <- get v a ;; get_all w l'
  end.

(** Automatic ([{}]) and explicit ([{0}]) numbering do not mix. *)
Inductive numbering : Type :=
  | Unset
  | Auto (next : nat)
  | Manual.

Definition positional (args : list value) (i : nat) : result value :=
  match nth_error args i with
  | Some v => Ok v
  | None => Raise IndexError
  end.

Definition get_arg (name : string) (args : list value)
  (kwargs : list (string * value)) (num : numbering)
  : result (value * numbering) :=
  if (name =? "")%string then
    match num with
    | Unset => rmap (fun v => (v, Auto 1)) (positional args 0)
    | Auto n => rmap (fun v => (v, Auto (S n))) (positional args n)
    | Manual => Raise ValueError
    end
  else if all_digits name then
    match num with
    | Auto _ => Raise ValueError
    | _ => rmap (fun v => (v, Manual)) (positional args (nat_of_digits name 0))
    end
  else
    match lookup name kwargs with
    | Some v => Ok (v, num)
    | None => Raise KeyError
    end.

Section Formatting.
Context `{FloatRepr}.

Definition get_field (f : string) (args : list value)
  (kwargs : list (string * value)) (num : numbering)
  : result (string * numbering) :=
  na <- scan_field f InName "" ;;
  vn <- get_arg (fst na) args kwargs num ;;
  v <- get_all (fst vn) (snd na) ;;
  s <- str_value v ;;
  Ok (s, snd vn).

(** The pieces of the result, in order: literal text as it stands, each
    field replaced by the text of its object. *)
Fixpoint vformat (items : list item) (args : list value)
  (kwargs : list (string * value)) (num : numbering)
  : result (list string) :=
  match items with
  | [] => Ok []
  | Lit s :: items' => rmap (cons s) (vformat items' args kwargs num)
  | Field f :: items' =>
      sn <- get_field f args kwargs num ;;
      rmap (cons (fst sn)) (vformat items' args kwargs (snd sn))
  end.

(** [t.format] on positional arguments [args] and keyword arguments
    [kwargs]. *)
Definition format (t : string) (args : list value)
  (kwargs : list (string * value)) : result string :=
  items <- parse t "" None ;;
  pieces <- vformat items args kwargs Unset ;;
  Ok (join "" pieces).

End Formatting.

(** [math.degrees]: one multiplication by the constant 180/pi. *)
Module math.
Definition pi : float := 0x1.921fb54442d18p+1%float.
Definition radToDeg : float := (180 / pi)%float.
Definition degrees (x : float) : float := (x * radToDeg)%float.
End math.

End Py.

(** ** The host application *)

Module App.

Record vector_t : Type := Vector { x : float; y : float; z : float }.

(** [a.cross(b)] *)
Definition cross (a b : vector_t) : vector_t :=
  Vector (y a * z b - z a * y b)%float
         (z a * x b - x a * z b)%float
         (x a * y b - y a * x b)%float.

(** A rotation, as the exporter sees one: its angle in radians, its axis,
    and what it does to a vector. *)
Record rotation_t : Type := {
  Angle : float;
  Axis : vector_t;
  multVec : vector_t -> vector_t
}.

Record placement_t : Type := {
  Base : vector_t;
  Rotation : rotation_t
}.

(** A document or view object, as far as it is read here. *)
Record object_t : Type := { Name : string }.

(** A mesh: its points, and each facet as the indices of its points. *)
Record mesh_t : Type := { Topology : list vector_t * list (list Z) }.

Record project_t : Type := { PageResult : string }.

(** A parameter group: its string entries. *)
Definition parameter_grp : Type := list (string * string).

(** [grp.GetString(key, default)] *)
Definition GetString (grp : parameter_grp) (key default : string) : string :=
  match Py.lookup key grp with
  | Some s => s
  | None => default
  end.

End App.

(** ** Effects *)

(** What a call leaves behind: lines on the report console, and commands
    handed to the operating system. *)
Inductive event : Type :=
  | PrintError (msg : string)
  | PrintMessage (msg : string)
  | System (cmd : string).

(** The world a call runs in: the stored preferences, the exit status the
    operating system answers each command with, and the events so far. *)
Record world : Type := {
  parameters : string -> App.parameter_grp;
  exit_status : string -> Z;
  events : list event
}.

Definition IO (A : Type) : Type := world -> A * world.

#[export] Instance IO_monad : Monad IO := {
  ret := fun A a w => (a, w);
  bind := fun A B m k w => let (a, w') := m w in k a w'
}.

Definition emit (e : event) : IO unit :=
  fun w => (tt, {| parameters := parameters w;
                   exit_status := exit_status w;
                   events := events w ++ [e] |}).

(** [App.ParamGet(path)] *)
Definition ParamGet (path : string) : IO App.parameter_grp :=
  fun w => (parameters w path, w).

(** [os.system(cmd)]: runs the command and hands back its exit status. *)
Definition os_system (cmd : string) : IO Z :=
  fun w => (exit_status w cmd, snd (emit (System cmd) w)).

(** ** The exporter *)

(** The templates of the exporter hold double quotes. They are written here
    with a backquote wherever the source has a double quote, and [src] puts
    the double quotes back; the rest of each template, line breaks and
    indentation included, is the text of the source. *)
Definition dquote : ascii := ascii_of_nat 34.

Fixpoint src (s : string) : string :=
  match s with
  | EmptyString => EmptyString
  | String c s' => String (if (c =? "`")%char then dquote else c) (src s')
  end.

Module Cycles.
Import Py App.

(** A vector, as the object a template reads [.x], [.y] and [.z] of. *)
Definition vec (v : vector_t) : value :=
  VObj [("x", VFloat (x v)); ("y", VFloat (y v)); ("z", VFloat (z v))].

Section Formatters.
Context `{FloatRepr}.

Definition write_camera (pos : vector_t) (rot : rotation_t)
  (updir target : vector_t) (name : string) : result string :=
  let snippet := src "
    <!-- Generated by FreeCAD - Camera '{n}' -->
    <transform rotate=`{a} {r.x} {r.y} {r.z}`
               translate=`{p.x} {p.y} {p.z}`
               scale=`1 1 -1`>
        <camera type=`perspective`/>
    </transform>" in
  format snippet []
    [("n", VStr name); ("a", VFloat (math.degrees (Angle rot)));
     ("r", vec (Axis rot)); ("p", vec pos)].

Definition write_object (viewobj : object_t) (mesh : mesh_t)
  (color : list float) (alpha : float) : result string :=
  let snippet1 := src "
    <!-- Generated by FreeCAD - Object '{n}' -->
    <shader name=`{n}_mat`>
        <diffuse_bsdf name=`{n}_bsdf` color=`{c[0]}, {c[1]}, {c[2]}`/>" in
  let snippet2a := src "
        <transparent_bsdf name=`{n}_trans` color=`1.0, 1.0, 1.0`/>
        <mix_closure name=`{n}_mix` fac=`{a}`/>
        <connect from=`{n}_trans bsdf`  to=`{n}_mix closure1`/>
        <connect from=`{n}_bsdf bsdf`   to=`{n}_mix closure2`/>
        <connect from=`{n}_mix closure` to=`output surface`/>
    </shader>" in
  let snippet2b := src "
        <connect from=`{n}_bsdf bsdf`   to=`output surface`/>
    </shader>" in
  let snippet3 := src "
    <state shader=`{n}_mat`>
        <mesh P=`{p}`
              nverts=`{i}`
              verts=`{v}`/>
    </state>
" in
  let snippet :=
    snippet1 ++ (if (alpha <? 1)%float then snippet2a else snippet2b)
             ++ snippet3 in
  points <- mapM (fun p => format "{0.x} {0.y} {0.z}" [vec p] [])
                 (fst (Topology mesh)) ;;
  verts <- mapM (fun v => format "{} {} {}" (map VInt v) [])
                (snd (Topology mesh)) ;;
  let nverts := repeat "3" (List.length verts) in
  format snippet []
    [("n", VStr (Name viewobj));
     ("c", VTuple (map VFloat color));
     ("a", VFloat alpha);
     ("p", VStr (join "  " points));
     ("i", VStr (join "  " nverts));
     ("v", VStr (join "  " verts))].

Definition write_pointlight (view : object_t) (location : vector_t)
  (color : list float) (power : float) : result string :=
  let snippet := src "
    <!-- Generated by FreeCAD - Pointlight '{n}' -->
    <shader name=`{n}_shader`>
        <emission name=`{n}_emit`
                  color=`{c[0]} {c[1]} {c[2]}`
                  strength=`{s}`/>
        <connect from=`{n}_emit emission`
                 to=`output surface`/>
    </shader>
    <state shader=`{n}_shader`>
        <light type=`point`
               co=`{p.x} {p.y} {p.z}`
               strength=`1 1 1`/>
    </state>
" in
  format snippet []
    [("n", VStr (Name view));
     ("c", VTuple (map VFloat color));
     ("p", vec location);
     ("s", VFloat (power * 100)%float)].

Definition write_arealight (name : string) (pos : placement_t)
  (size_u size_v : float) (color : list float) (power : float)
  : result string :=
  let rot := Rotation pos in
  let axis1 := multVec rot (Vector 1 0.0 0.0) in
  let axis2 := multVec rot (Vector 0.0 1.0 0.0) in
  let direction := cross axis1 axis2 in
  let snippet := src "
    <!-- Generated by FreeCAD - Area light '{n}' -->
    <shader name=`{n}_shader`>
        <emission name=`{n}_emit`
                  color=`{c[0]} {c[1]} {c[2]}`
                  strength=`{s}`/>
        <connect from=`{n}_emit emission`
                 to=`output surface`/>
    </shader>
    <state shader=`{n}_shader`>
        <light type=`area`
               co=`{p.x} {p.y} {p.z}`
               strength=`1 1 1`
               axisu=`{u.x} {u.y} {u.z}`
               axisv=`{v.x} {v.y} {v.z}`
               sizeu=`{a}`
               sizev=`{b}`
               size=`1`
               dir=`{d.x} {d.y} {d.z}` />
    </state>
" in
  format snippet []
    [("n", VStr name);
     ("c", VTuple (map VFloat color));
     ("p", vec (Base pos));
     ("s", VFloat (power * 100)%float);
     ("u", vec axis1);
     ("v", vec axis2);
     ("a", VFloat size_u);
     ("b", VFloat size_v);
     ("d", vec direction)].

End Formatters.

(** [if s:] on a string *)
Definition truthy (s : string) : bool :=
  match s with
  | EmptyString => false
  | String _ _ => true
  end.

Definition newline : string := String (ascii_of_nat 10) EmptyString.

Definition render (project : project_t) (prefix : string) (external : bool)
  (output : string) (width height : Z) : IO string :=
  params <- ParamGet "User parameter:BaseApp/Preferences/Mod/Render" ;;
  let prefix := GetString params "Prefix" "" in
  let prefix := if truthy prefix then prefix ++ " " else prefix in
  let rpath := GetString params "CyclesPath" "" in
  let args := GetString params "CyclesParameters" "" in
  let args := args ++ " --output " ++ output in
  let args := if negb external then args ++ " --background" else args in
  if negb (truthy rpath) then
    emit (PrintError ("Unable to locate renderer executable. "
                      ++ "Please set the correct path in "
                      ++ "Edit -> Preferences -> Render")) ;;;
    ret ""
  else
    let args := args ++ " --width " ++ int_str width in
    let args := args ++ " --height " ++ int_str height in
    let cmd := prefix ++ rpath ++ " " ++ args ++ " " ++ PageResult project in
    emit (PrintMessage (cmd ++ newline)) ;;;
    _ <- os_system cmd ;;
    ret output.

End Cycles.

(** ** Reading the markup back

    The text the formatters write is markup: elements, each with attributes
    written [key=value], the value between double quotes. [read] takes a text
    to the elements that open in it, in order, each with its attributes. *)

Module Markup.
Import Py.

Inductive token : Type :=
  | Open (tag : string)
  | Att (key value : string).

(** Where the reader stands: outside any tag; just past a [<]; in the name
    [t] of a tag; inside a tag, [w] being the name read last; past the [=]
    that follows the name [w]; in the value of the attribute [k], [v] being
    what was read of it. *)
Inductive mode : Type :=
  | Outside
  | Lt
  | Tag (t : string)
  | Inside (w : string)
  | Eq (w : string)
  | Val (k v : string).

Record state : Type := { toks : list token; at_ : mode }.

Definition is_name_char (c : ascii) : bool :=
  let n := nat_of_ascii c in
  ((65 <=? n) && (n <=? 90) || (97 <=? n) && (n <=? 122)
   || (48 <=? n) && (n <=? 57) || (n =? 95))%nat.

Definition inside (w : string) (c : ascii) : mode :=
  if (c =? ">")%char then Outside
  else if (c =? "=")%char then Eq w
  else if is_name_char c then Inside (snoc w c)
  else Inside "".

Definition step (st : state) (c : ascii) : state :=
  match at_ st with
  | Outside =>
      {| toks := toks st;
         at_ := if (c =? "<")%char then Lt else Outside |}
  | Lt =>
      {| toks := toks st;
         at_ := if is_name_char c then Tag (String c "") else inside "" c |}
  | Tag t =>
      if is_name_char c then {| toks := toks st; at_ := Tag (snoc t c) |}
      else {| toks := toks st ++ [Open t]; at_ := inside "" c |}
  | Inside w => {| toks := toks st; at_ := inside w c |}
  | Eq w =>
      {| toks := toks st;
         at_ := if (c =? dquote)%char then Val w "" else inside "" c |}
  | Val k v =>
      if (c =? dquote)%char
      then {| toks := toks st ++ [Att k v]; at_ := Inside "" |}
      else {| toks := toks st; at_ := Val k (v ++ String c "") |}
  end.

Fixpoint run (st : state) (s : string) : state :=
  match s with
  | "" => st
  | String c s' => run (step st c) s'
  end.

Definition element : Type := string * list (string * string).

(** The attributes that follow an opening tag. *)
Fixpoint attrs_of (l : list token) : list (string * string) :=
  match l with
  | Att k v :: l' => (k, v) :: attrs_of l'
  | _ => []
  end.

Fixpoint elements (l : list token) : list element :=
  match l with
  | [] => []
  | Open t :: l' => (t, attrs_of l') :: elements l'
  | Att _ _ :: l' => elements l'
  end.

Definition read (s : string) : list element :=
  elements (toks (run {| toks := []; at_ := Outside |} s)).

(** The elements of one kind, each as its attributes. *)
Definition all (tag : string) (doc : list element)
  : list (list (string * string)) :=
  map snd (filter (fun e => (fst e =? tag)%string) doc).

(** The value of an attribute of the first element of a kind. *)
Definition attr (tag key : string) (doc : list element) : option string :=
  match all tag doc with
  | [] => None
  | a :: _ => lookup key a
  end.

End Markup.


(** ** What the properties are stated with *)

Import Py App Cycles Markup.

Fixpoint nochar (c : ascii) (s : string) : bool :=
  match s with
  | "" => true
  | String a s' => negb (a =? c)%char && nochar c s'
  end.

(** Text that can stand inside a tag or inside a value without ending it:
    no [=], no [>], no double quote. The names the host gives its objects are
    such text, and so is all the formatters write for a number. *)
Definition plain (s : string) : bool :=
  nochar "=" s && nochar ">" s && nochar dquote s.

(** The name the reader holds after a plain piece read inside a tag. *)
Fixpoint trail (w h : string) : string :=
  match h with
  | "" => w
  | String c h' => trail (if is_name_char c then snoc w c else "") h'
  end.

(** The three coordinates of a vector, a blank between them. *)
Definition vec_text `{FloatRepr} (v : vector_t) : string :=
  float_str (x v) ++ " " ++ float_str (y v) ++ " " ++ float_str (z v).

(** The first three indices of a facet, a blank between them. *)
Definition face_text (f : list Z) : string :=
  join " " (map int_str (firstn 3 f)).

(** The first three components of a colour, [sep] between them. *)
Definition colour_text `{FloatRepr} (sep : string) (color : list float)
  : string :=
  float_str (nth 0 color 0%float) ++ sep
  ++ float_str (nth 1 color 0%float) ++ sep
  ++ float_str (nth 2 color 0%float).

(** The commands handed to the operating system, in order. *)
Fixpoint processes (es : list event) : list string :=
  match es with
  | [] => []
  | System cmd :: es' => cmd :: processes es'
  | _ :: es' => processes es'
  end.

(** The preferences group [render] reads. *)
Definition render_prefs : string :=
  "User parameter:BaseApp/Preferences/Mod/Render".

Definition stored (w : world) (key : string) : string :=
  GetString (parameters w render_prefs) key "".

(** The command line as the specification words it: the prefix token if
    there is one, the executable, the stored parameters, [--output] and the
    output path, [--background] unless the call is external, [--width] and
    [--height] with their values, the scene file. *)
Definition command_line (prefix rpath params output : string)
  (external : bool) (width height : Z) (scene : string) : string :=
  (match prefix with "" => "" | _ => prefix ++ " " end)
  ++ rpath ++ " " ++ params
  ++ " --output " ++ output
  ++ (if external then "" else " --background")
  ++ " --width " ++ int_str width
  ++ " --height " ++ int_str height
  ++ " " ++ scene.

Definition not_located : string :=
  "Unable to locate renderer executable. Please set the correct path in Edit -> Preferences -> Render".

(** The document an object is written as; [fac] is the mixing factor when
    the object is transparent. *)
Definition object_doc (n colour : string) (fac : option string)
  (P nverts verts : string) : list element :=
  [("shader", [("name", n ++ "_mat")]);
   ("diffuse_bsdf", [("name", n ++ "_bsdf"); ("color", colour)])]
  ++ match fac with
     | Some a =>
         [("transparent_bsdf",
           [("name", n ++ "_trans"); ("color", "1.0, 1.0, 1.0")]);
          ("mix_closure", [("name", n ++ "_mix"); ("fac", a)]);
          ("connect",
           [("from", n ++ "_trans bsdf"); ("to", n ++ "_mix closure1")]);
          ("connect",
           [("from", n ++ "_bsdf bsdf"); ("to", n ++ "_mix closure2")]);
          ("connect",
           [("from", n ++ "_mix closure"); ("to", "output surface")])]
     | None =>
         [("connect", [("from", n ++ "_bsdf bsdf"); ("to", "output surface")])]
     end
  ++ [("state", [("shader", n ++ "_mat")]);
      ("mesh", [("P", P); ("nverts", nverts); ("verts", verts)])].

(** The shader of a light. *)
Definition emission_doc (n colour strength : string) : list element :=
  [("shader", [("name", n ++ "_shader")]);
   ("emission",
    [("name", n ++ "_emit"); ("color", colour); ("strength", strength)]);
   ("connect", [("from", n ++ "_emit emission"); ("to", "output surface")]);
   ("state", [("shader", n ++ "_shader")])].

(** *** Inputs the properties are run on *)

Module Sample.

Definition origin : vector_t := Vector 0 0 0.

(** A quarter turn about the z axis. *)
Definition quarter_turn : rotation_t :=
  {| Angle := (math.pi / 2)%float;
     Axis := Vector 0 0 1;
     multVec := fun v => Vector (- y v) (x v) (z v) |}.

Definition placement : placement_t :=
  {| Base := Vector 1 2 3; Rotation := quarter_turn |}.

Definition box : object_t := {| Name := "Box" |}.

Definition grey : list float := [0.5; 0.5; 0.5; 0]%float.

(** The mesh of one triangle. *)
Definition triangle : mesh_t :=
  {| Topology := ([Vector 0 0 0; Vector 1 0 0; Vector 0 1 0],
                  [[0; 1; 2]]%Z) |}.

(** A mesh with one facet of four indices. *)
Definition quad : mesh_t :=
  {| Topology := ([Vector 0 0 0; Vector 1 0 0; Vector 1 1 0; Vector 0 1 0],
                  [[0; 1; 2; 3]]%Z) |}.

(** A mesh with a facet of two indices. *)
Definition broken : mesh_t :=
  {| Topology := ([Vector 0 0 0; Vector 1 0 0], [[0; 1]]%Z) |}.

Definition project : project_t := {| PageResult := "/tmp/scene.xml" |}.

Definition configured : world :=
  {| parameters := fun _ =>
       [("Prefix", "nice"); ("CyclesPath", "/usr/bin/cycles");
        ("CyclesParameters", "--samples 8")];
     exit_status := fun _ => 1%Z;
     events := [] |}.

Definition unconfigured : world :=
  {| parameters := fun _ => [("Prefix", "nice")];
     exit_status := fun _ => 0%Z;
     events := [] |}.

End Sample.

(** ** The base classes ([Render/base.py]) *)

Module RenderBase.

(** *** Dictionaries

    A dictionary with string keys: its items, in the order the keys were
    first set. *)
Definition dict (V : Type) : Type := list (string * V).

Definition keys {V : Type} (d : dict V) : list string := map fst d.

(** [d[k] = v]: a key already there keeps its place. *)
Fixpoint setitem {V : Type} (k : string) (v : V) (d : dict V) : dict V :=
  match d with
  | [] => [(k, v)]
  | (k', v') :: d' =>
      if (k =? k')%string then (k', v) :: d' else (k', v') :: setitem k v d'
  end.

(** [d.update(other)] *)
Definition update {V : Type} (d other : dict V) : dict V :=
  fold_left (fun acc kv => setitem (fst kv) (snd kv) acc) other d.

(** [d[k]] *)
Definition getitem {V : Type} (k : string) (d : dict V) : result V :=
  match lookup k d with
  | Some v => Ok v
  | None => Raise KeyError
  end.

(** What a dictionary display binds a key to: the last item with the key. *)
Definition binding {V : Type} (k : string) (items : dict V) : option V :=
  lookup k (rev items).

(** *** The named tuples *)

Record Prop_ : Type := {
  Type_ : string;
  Group : string;
  Doc : string;
  Default : value;
  EditorMode : Z
}.

Record CtxMenuItem : Type := {
  name : string;
  action : string;
  icon : option string
}.

(** *** Exceptions

    What the module raises besides the exceptions of the runtime above, and
    those. *)
Inductive raised : Type :=
  | NameError (name : string)
  | AssertionError (msg : string)
  | ValueErrorFrom (msg : string) (cause : exn)
  | Raised (e : exn).

Section Classes.

(** Methods take a host object and act on the state of the application,
    which is not looked into. *)
Variables (Obj St : Type).

Definition method : Type := Obj -> St -> result unit * St.

(** A class, as far as the module looks into one: its name and what its own
    body assigns ([vars(cls)]); a constant the body does not assign is
    [None]. [methods] are the attributes the dispatchers can name, each with
    what calling it does. *)
Record class_t : Type := {
  name__ : string;
  VIEWPROVIDER : option string;
  NAMESPACE : option string;
  TYPE : option string;
  PROPERTIES : option (dict Prop_);
  ON_CHANGED : option (dict string);
  ON_UPDATE : option (dict string);
  CONTEXT_MENU : option (list CtxMenuItem);
  DISPLAY_MODES : option (list string);
  methods : dict method
}.

(** An object is looked at through [obj.__class__.__mro__]: its class first,
    then the bases in resolution order. *)
Definition mro_t : Type := list class_t.

(** The values of an attribute in the classes that assign it, the most
    basic class first. *)
Definition own_values {V : Type} (mro : mro_t) (attr : class_t -> option V)
  : list V :=
  flat_map (fun cls => match attr cls with Some v => [v] | None => [] end)
           (rev mro).

Definition get_cumulative_dict_attribute {V : Type} (mro : mro_t)
  (attr : class_t -> option (dict V)) : dict V :=
  let attributes := own_values mro attr in
  fold_left update attributes [].

(** [self.attr] for a constant of the class: the nearest class that assigns
    it. *)
Fixpoint class_attr {V : Type} (mro : mro_t) (attr : class_t -> option V)
  : result V :=
  match mro with
  | [] => Raise AttributeError
  | cls :: bases =>
      match attr cls with
      | Some v => Ok v
      | None => class_attr bases attr
      end
  end.

(** [getattr(self, name)] for a method. *)
Definition getattr (mro : mro_t) (name : string) : result method :=
  class_attr mro (fun cls => lookup name (methods cls)).

Definition _context_menu_mapping (mro : mro_t) : list CtxMenuItem :=
  concat (own_values mro CONTEXT_MENU).

Definition _on_changed_mapping (mro : mro_t) : dict string :=
  get_cumulative_dict_attribute mro ON_CHANGED.

Definition onChanged (self : mro_t) (vpdo : Obj) (prop : string)
  : St -> result unit * St :=
  fun s =>
    match (let on_changed := _on_changed_mapping self in
           name <- getitem prop on_changed ;;
           getattr self name) with
    | Raise KeyError => (Ok tt, s)
    | Raise e => (Raise e, s)
    | Ok method => method vpdo s
    end.

Definition _on_update_mapping (mro : mro_t) : dict string :=
  get_cumulative_dict_attribute mro ON_UPDATE.

Definition updateData (self : mro_t) (fpo : Obj) (prop : string)
  : St -> result unit * St :=
  fun s =>
    let on_update := _on_update_mapping self in
    match (name <- getitem prop on_update ;; getattr self name) with
    | Raise KeyError => (Ok tt, s)
    | Raise e => (Raise e, s)
    | Ok method => method fpo s
    end.

Definition getDisplayModes (self : mro_t) (vobj : Obj) : result (list string) :=
  class_attr self DISPLAY_MODES.

Definition getDefaultDisplayMode (self : mro_t) : result string :=
  modes <- class_attr self DISPLAY_MODES ;;
  match modes with
  | [] => Raise IndexError
  | mode :: _ => Ok mode
  end.

Definition setDisplayMode (self : mro_t) (mode : string) : string := mode.

(** The nearest class that binds a key in a dictionary attribute, and what
    it binds it to. *)
Fixpoint resolve {V : Type} (attr : class_t -> option (dict V)) (k : string)
  (mro : mro_t) : option V :=
  match mro with
  | [] => None
  | cls :: bases =>
      match attr cls with
      | Some d =>
          match binding k d with
          | Some v => Some v
          | None => resolve attr k bases
          end
      | None => resolve attr k bases
      end
  end.

(** *** [BaseFeature._set_properties]

    What the method does to the host is a sequence of calls, which are
    taken to return. *)
Inductive call : Type :=
  | SetFpo
  | SetModule (namespace : string)
  | SetProxy
  | AddProperty (type name group doc : string) (attr : Z)
  | SetAttr (name : string) (v : value)
  | SetEditorMode (name : string) (mode : Z)
  | OnSetProperties.

(** One turn of the loop: the specification is looked up first, in
    [self.PROPERTIES], then the three calls are made. *)
Definition add_property (self : mro_t) (name : string) : result (list call) :=
  table <- class_attr self PROPERTIES ;;
  spec <- getitem name table ;;
  Ok [AddProperty (Type_ spec) name (Group spec) (Doc spec) 0;
      SetAttr name (Default spec);
      SetEditorMode name (EditorMode spec)].

Fixpoint add_properties (self : mro_t) (names : list string)
  : result unit * list call :=
  match names with
  | [] => (Ok tt, [])
  | name :: names' =>
      match add_property self name with
      | Raise e => (Raise e, [])
      | Ok calls =>
          let (r, calls') := add_properties self names' in
          (r, (calls ++ calls')%list)
      end
  end.

(** The order in which a set is gone through is the interpreter's. *)
Variable set_order : list string -> list string.

Definition _set_properties (self : mro_t) (PropertiesList : list string)
  : result unit * list call :=
  match class_attr self NAMESPACE with
  | Raise e => (Raise e, [SetFpo])
  | Ok namespace =>
      let properties := get_cumulative_dict_attribute self PROPERTIES in
      let missing :=
        set_order
          (filter (fun name => negb (existsb (String.eqb name) PropertiesList))
                  (keys properties)) in
      let (r, calls) := add_properties self missing in
      match r with
      | Ok _ =>
          (Ok tt,
           ([SetFpo; SetModule namespace; SetProxy] ++ calls
            ++ [OnSetProperties])%list)
      | Raise e =>
          (Raise e, ([SetFpo; SetModule namespace; SetProxy] ++ calls)%list)
      end
  end.

(** The property a call is about. *)
Definition property_of (c : call) : option string :=
  match c with
  | AddProperty _ name _ _ _ | SetAttr name _ | SetEditorMode name _ =>
      Some name
  | _ => None
  end.

(** The names of the properties the classes of an object declare. *)
Definition declared (self : mro_t) : list string :=
  keys (get_cumulative_dict_attribute self PROPERTIES).

(** The properties the loop of [_set_properties] goes through. *)
Definition lacking (set_order : list string -> list string)
  (self : mro_t) (PropertiesList : list string) : list string :=
  set_order
    (filter (fun name => negb (existsb (String.eqb name) PropertiesList))
            (keys (get_cumulative_dict_attribute self PROPERTIES))).

(** *** [BaseViewProvider.setupContextMenu]

    What the method asks of the toolkit: a new action, with the file of its
    icon if it has one, the connection of the action to a method of the
    object, and the addition of the action to the menu. The calls are taken
    to return. *)
Inductive menu_call : Type :=
  | NewAction (icon : option string) (name : string)
  | Connect (action : string)
  | AddAction.

(** [if item.icon:] *)
Definition has_icon (item : CtxMenuItem) : bool :=
  match icon item with
  | Some file => Cycles.truthy file
  | None => false
  end.

Definition new_action (item : CtxMenuItem) : menu_call :=
  if has_icon item then NewAction (icon item) (name item)
  else NewAction None (name item).

Fixpoint add_actions (self : mro_t) (items : list CtxMenuItem)
  : result unit * list menu_call :=
  match items with
  | [] => (Ok tt, [])
  | item :: items' =>
      match getattr self (action item) with
      | Raise e => (Raise e, [new_action item])
      | Ok _ =>
          let (r, calls) := add_actions self items' in
          (r, new_action item :: Connect (action item) :: AddAction :: calls)
      end
  end.

Definition setupContextMenu (self : mro_t) : result unit * list menu_call :=
  add_actions self (_context_menu_mapping self).

(** *** [BaseFeature.type] and [BaseFeature.create] *)

(** [cls.__name__]. A resolution order lists the classes down to [object],
    which it leaves out. *)
Definition __name__ (cls : mro_t) : string :=
  match cls with
  | [] => "object"
  | c :: _ => name__ c
  end.

Definition type (self : mro_t) : result string :=
  TYPE_ <- class_attr self TYPE ;;
  Ok (if Cycles.truthy TYPE_ then TYPE_ else __name__ self).

(** The documents of the host; a document is true. *)
Variable Document : Type.

(** What [create] asks of the class and of the host, in order: the hook
    [pre_create_cb], [doc.addObject], the calls of [cls(fpo)], the view
    provider's constructor, the hook [on_create_cb], [recompute]. The calls
    are taken to return. *)
Inductive step : Type :=
  | PreCreate
  | AddObject (doc : Document) (type name : string)
  | Init (c : call)
  | ViewProvider (name : string)
  | OnCreate
  | Recompute (doc : Document).

(** [getattr(sys.modules[cls.NAMESPACE], cls.VIEWPROVIDER)], where
    [modules] gives each loaded module the names it binds. *)
Definition viewp_class (cls : mro_t) (modules : dict (list string))
  : result string :=
  namespace <- class_attr cls NAMESPACE ;;
  module <- getitem namespace modules ;;
  name <- class_attr cls VIEWPROVIDER ;;
  if existsb (String.eqb name) module then Ok name else Raise AttributeError.

Context `{FloatRepr}.

(** [PropertiesList] is the list of the properties the host gives the new
    object; [ActiveDocument] is read before the object is added and again
    at the end, and is taken to be the same then. *)
Definition create (cls : mro_t) (document ActiveDocument : option Document)
  (modules : dict (list string)) (PropertiesList : list string)
  : (raised + unit) * list step :=
  let doc :=
    match document with Some d => Some d | None => ActiveDocument end in
  match doc with
  | None =>
      (inl (AssertionError ("Cannot create object if no document is provided "
                            ++ "and no document is active")),
       [PreCreate])
  | Some doc =>
      match type cls with
      | Raise e => (inl (Raised e), [PreCreate])
      | Ok _type =>
          let (r, calls) := _set_properties cls PropertiesList in
          let done :=
            PreCreate :: AddObject doc "App::FeaturePython" _type
            :: map Init calls in
          match r with
          | Raise e => (inl (Raised e), done)
          | Ok _ =>
              match viewp_class cls modules with
              | Raise AttributeError =>
                  let msg :=
                    "Bad {d}.VIEWPROVIDER value in '{d}' creation: '{v}'"
                    ++ Cycles.newline in
                  match (v <- class_attr cls VIEWPROVIDER ;;
                         format msg [] [("d", VStr (__name__ cls));
                                        ("v", VStr v)]) with
                  | Ok msg => (inl (ValueErrorFrom msg AttributeError), done)
                  | Raise e => (inl (Raised e), done)
                  end
              | Raise e => (inl (Raised e), done)
              | Ok name =>
                  let done := (done ++ [ViewProvider name; OnCreate])%list in
                  match ActiveDocument with
                  | None => (inl (Raised AttributeError), done)
                  | Some active => (inr tt, (done ++ [Recompute active])%list)
                  end
              end
          end
      end
  end.

End Classes.

(** *** [PointableFeatureMixin.point_at] *)

Section Pointing.

(** The host's [a.getAngle(b)], [App.Rotation(axis, angle)] and
    [r.multiply(q)]. *)
Variable getAngle : vector_t -> vector_t -> float.
Variable Rotation_ : vector_t -> float -> rotation_t.
Variable multiply : rotation_t -> rotation_t -> rotation_t.

(** [v.Length] *)
Definition Length (v : vector_t) : float :=
  sqrt (x v * x v + y v * y v + z v * z v)%float.

(** [bool(f)] for a float: false for zero only. *)
Definition truth (f : float) : bool := negb (f =? 0)%float.

(** The functions on floats the module binds a name to. It imports and
    defines none: [degrees], which [point_at] calls, is not among its
    names. *)
Definition float_functions : dict (float -> float) := [].

(** The placement of the feature is what the method reads and assigns;
    [self.fpo] is taken to be set, which [_set_properties] does first. *)
Definition point_at (placement : placement_t) (point : vector_t)
  : (unit + raised) * placement_t :=
  let current_target :=
    multVec (Rotation placement) (Vector 0 0 (-1)) in
  let base := Base placement in
  let new_target :=
    Vector (x point - x base)%float (y point - y base)%float
           (z point - z base)%float in
  let axis := cross current_target new_target in
  if negb (truth (Length axis)) then (inl tt, placement)
  else
    match lookup "degrees" float_functions with
    | None => (inr (NameError "degrees"), placement)
    | Some degrees =>
        let angle := degrees (getAngle new_target current_target) in
        let rotation := Rotation_ axis angle in
        (inl tt,
         {| Base := Base placement;
            Rotation := multiply rotation (Rotation placement) |})
    end.

End Pointing.

(** *** [PointableViewProviderMixin] *)

Module PointableViewProviderMixin.

(** A mouse button event, with what the view found under the pointer, if
    anything. *)
Inductive state_t : Type := UP | DOWN | UNKNOWN.

Inductive button_t : Type :=
  | ANY | BUTTON1 | BUTTON2 | BUTTON3 | BUTTON4 | BUTTON5.

Record event_cb_t : Type := {
  getState : state_t;
  getButton : button_t;
  getPickedPoint : option vector_t
}.

Section Callback.
Context `{FloatRepr}.
Variable getAngle : vector_t -> vector_t -> float.
Variable Rotation_ : vector_t -> float -> rotation_t.
Variable multiply : rotation_t -> rotation_t -> rotation_t.

(** [Render.utils.translate] *)
Variable translate : string -> string -> string.

(** What the active view hands back for a callback it has installed. *)
Variable handle : Type.

(** What the methods ask of the console and of the active view; the calls
    are taken to return. *)
Inductive gui_call : Type :=
  | Message (msg : string)
  | AddEventCallback (installed : handle)
  | RemoveEventCallback (callback : option handle).

(** [point_at] gives the new value of [self.callback]; [installed] is what
    the view hands back. *)
Definition point_at (installed : handle) : option handle * list gui_call :=
  let msg :=
    translate "Render" "[Point at] Please select target (on geometry)"
    ++ Cycles.newline in
  (Some installed, [Message msg; AddEventCallback installed]).

(** The callback reads [self.callback] and acts on the placement of the
    feature. *)
Definition _point_at_cb (callback : option handle) (placement : placement_t)
  (event_cb : event_cb_t) : (unit + raised) * placement_t * list gui_call :=
  match getState event_cb, getButton event_cb with
  | DOWN, BUTTON1 =>
      let finally := [RemoveEventCallback callback] in
      match getPickedPoint event_cb with
      | None =>
          let msg :=
            translate "Render"
                      "[Point at] Target outside geometry -- Aborting"
            ++ Cycles.newline in
          (inl tt, placement, Message msg :: finally)
      | Some point =>
          let (r, placement') :=
            RenderBase.point_at getAngle Rotation_ multiply placement point in
          match r with
          | inr e => (inr e, placement', finally)
          | inl _ =>
              let msg :=
                translate "Render"
                          "[Point at] Now pointing at ({0.x}, {0.y}, {0.z})"
                ++ Cycles.newline in
              match format msg [Cycles.vec point] [] with
              | Raise e => (inr (Raised e), placement', finally)
              | Ok text => (inl tt, placement', Message text :: finally)
              end
          end
      end
  | _, _ => (inl tt, placement, [])
  end.

End Callback.

End PointableViewProviderMixin.

End RenderBase.

Arguments RenderBase.name__ {Obj St}.
Arguments RenderBase.VIEWPROVIDER {Obj St}.
Arguments RenderBase.NAMESPACE {Obj St}.
Arguments RenderBase.TYPE {Obj St}.
Arguments RenderBase.PROPERTIES {Obj St}.
Arguments RenderBase.ON_CHANGED {Obj St}.
Arguments RenderBase.ON_UPDATE {Obj St}.
Arguments RenderBase.CONTEXT_MENU {Obj St}.
Arguments RenderBase.DISPLAY_MODES {Obj St}.
Arguments RenderBase.methods {Obj St}.
Arguments RenderBase.own_values {Obj St V}.
Arguments RenderBase.get_cumulative_dict_attribute {Obj St V}.
Arguments RenderBase.class_attr {Obj St V}.
Arguments RenderBase.getattr {Obj St}.
Arguments RenderBase._context_menu_mapping {Obj St}.
Arguments RenderBase._on_changed_mapping {Obj St}.
Arguments RenderBase.onChanged {Obj St}.
Arguments RenderBase._on_update_mapping {Obj St}.
Arguments RenderBase.updateData {Obj St}.
Arguments RenderBase.getDisplayModes {Obj St}.
Arguments RenderBase.getDefaultDisplayMode {Obj St}.
Arguments RenderBase.setDisplayMode {Obj St}.
Arguments RenderBase.resolve {Obj St V}.
Arguments RenderBase.add_property {Obj St}.
Arguments RenderBase.add_properties {Obj St}.
Arguments RenderBase._set_properties {Obj St}.
Arguments RenderBase.lacking {Obj St}.
Arguments RenderBase.declared {Obj St}.
Arguments RenderBase.add_actions {Obj St}.
Arguments RenderBase.setupContextMenu {Obj St}.
Arguments RenderBase.__name__ {Obj St}.
Arguments RenderBase.type {Obj St}.
Arguments RenderBase.viewp_class {Obj St}.
Arguments RenderBase.PreCreate {Document}.
Arguments RenderBase.AddObject {Document}.
Arguments RenderBase.Init {Document}.
Arguments RenderBase.ViewProvider {Document}.
Arguments RenderBase.OnCreate {Document}.
Arguments RenderBase.Recompute {Document}.
Arguments RenderBase.create {Obj St} set_order {Document H}.
Arguments RenderBase.PointableViewProviderMixin.Message {handle}.
Arguments RenderBase.PointableViewProviderMixin.AddEventCallback {handle}.
Arguments RenderBase.PointableViewProviderMixin.RemoveEventCallback {handle}.
Arguments RenderBase.PointableViewProviderMixin.point_at translate {handle}.
Arguments RenderBase.PointableViewProviderMixin._point_at_cb
  {H} getAngle Rotation_ multiply translate {handle}.

(** *** A hierarchy the properties are run on

    The classes of the module, and a camera built on them the way the
    workbench builds its objects: a feature and a view provider, each a
    pointable mixin over the base class. Methods write their name into a
    log. *)

Module Hierarchy.
Import RenderBase.

Definition logs (what : string) : method unit (list string) :=
  fun _ log => (Ok tt, (log ++ [what])%list).

(** A method that raises. *)
Definition fails (what : string) : method unit (list string) :=
  fun _ log => (Raise KeyError, (log ++ [what])%list).

Definition InterfaceBaseFeature : class_t unit (list string) :=
  {| name__ := "InterfaceBaseFeature";
     VIEWPROVIDER := Some "";
     TYPE := Some "";
     NAMESPACE := Some "Render";
     PROPERTIES := Some [];
     ON_CHANGED := None;
     ON_UPDATE := None;
     CONTEXT_MENU := None;
     DISPLAY_MODES := None;
     methods := [("on_set_properties_cb", logs "on_set_properties_cb");
                 ("on_create_cb", logs "on_create_cb")] |}.

Definition BaseFeature : class_t unit (list string) :=
  {| name__ := "BaseFeature";
     VIEWPROVIDER := None;
     TYPE := None;
     NAMESPACE := None;
     PROPERTIES := None;
     ON_CHANGED := None;
     ON_UPDATE := None;
     CONTEXT_MENU := None;
     DISPLAY_MODES := None;
     methods := [] |}.

Definition PointableFeatureMixin : class_t unit (list string) :=
  {| name__ := "PointableFeatureMixin";
     VIEWPROVIDER := None;
     TYPE := None;
     NAMESPACE := None;
     PROPERTIES :=
       Some [("Placement",
              {| Type_ := "App::PropertyPlacement";
                 Group := "Pointable";
                 Doc := "Object placement";
                 Default := VObj [];
                 EditorMode := 0 |})];
     ON_CHANGED := None;
     ON_UPDATE := None;
     CONTEXT_MENU := None;
     DISPLAY_MODES := None;
     methods := [] |}.

(** A feature with a table of its own. *)
Definition Camera : class_t unit (list string) :=
  {| name__ := "Camera";
     VIEWPROVIDER := Some "ViewProviderCamera";
     TYPE := None;
     NAMESPACE := None;
     PROPERTIES :=
       Some [("Projection",
              {| Type_ := "App::PropertyEnumeration";
                 Group := "Camera";
                 Doc := "Type of projection";
                 Default := VStr "Perspective";
                 EditorMode := 0 |});
             ("AspectRatio",
              {| Type_ := "App::PropertyFloat";
                 Group := "Camera";
                 Doc := "Ratio width/height";
                 Default := VFloat 1;
                 EditorMode := 2 |})];
     ON_CHANGED := None;
     ON_UPDATE := None;
     CONTEXT_MENU := None;
     DISPLAY_MODES := None;
     methods := [] |}.

Definition camera_mro : mro_t unit (list string) :=
  [Camera; PointableFeatureMixin; BaseFeature; InterfaceBaseFeature].

Definition InterfaceBaseViewProvider : class_t unit (list string) :=
  {| name__ := "InterfaceBaseViewProvider";
     VIEWPROVIDER := None;
     TYPE := None;
     NAMESPACE := None;
     PROPERTIES := None;
     ON_CHANGED := Some [];
     ON_UPDATE := Some [];
     CONTEXT_MENU := Some [];
     DISPLAY_MODES := Some ["Default"];
     methods := [("on_attach_cb", logs "on_attach_cb")] |}.

Definition BaseViewProvider : class_t unit (list string) :=
  {| name__ := "BaseViewProvider";
     VIEWPROVIDER := None;
     TYPE := None;
     NAMESPACE := None;
     PROPERTIES := None;
     ON_CHANGED := None;
     ON_UPDATE := None;
     CONTEXT_MENU := None;
     DISPLAY_MODES := None;
     methods := [] |}.

Definition PointableViewProviderMixin : class_t unit (list string) :=
  {| name__ := "PointableViewProviderMixin";
     VIEWPROVIDER := None;
     TYPE := None;
     NAMESPACE := None;
     PROPERTIES := None;
     ON_CHANGED := None;
     ON_UPDATE := None;
     CONTEXT_MENU :=
       Some [{| name := "Point at..."; action := "point_at"; icon := None |}];
     DISPLAY_MODES := None;
     methods := [("point_at", logs "point_at")] |}.

(** A view provider that reacts to two properties. *)
Definition ViewProviderLight : class_t unit (list string) :=
  {| name__ := "ViewProviderLight";
     VIEWPROVIDER := None;
     TYPE := None;
     NAMESPACE := None;
     PROPERTIES := None;
     ON_CHANGED := Some [("Visibility", "_change_visibility")];
     ON_UPDATE :=
       Some [("Power", "_update_power"); ("Color", "_update_color");
             ("Radius", "_update_radius")];
     CONTEXT_MENU := None;
     DISPLAY_MODES := None;
     methods := [("_change_visibility", logs "light visibility");
                 ("_update_power", logs "light power");
                 ("_update_color", fails "light color")] |}.

(** A view provider that rebinds one of them. *)
Definition ViewProviderSpot : class_t unit (list string) :=
  {| name__ := "ViewProviderSpot";
     VIEWPROVIDER := None;
     TYPE := None;
     NAMESPACE := None;
     PROPERTIES := None;
     ON_CHANGED := None;
     ON_UPDATE := Some [("Power", "_update_beam"); ("Angle", "_update_beam")];
     CONTEXT_MENU :=
       Some [{| name := "Narrow"; action := "narrow";
                icon := Some "narrow.svg" |}];
     DISPLAY_MODES := Some [];
     methods := [("_update_beam", logs "spot beam")] |}.

Definition spot_mro : mro_t unit (list string) :=
  [ViewProviderSpot; ViewProviderLight; PointableViewProviderMixin;
   BaseViewProvider; InterfaceBaseViewProvider].

End Hierarchy.

(** ** Facts about texts *)

Lemma append_assoc (a b c : string) : (a ++ b) ++ c = a ++ b ++ c.
Proof. induction a as [|x a IH]; cbn; [reflexivity | now rewrite IH]. Qed.

Lemma append_nil_r (a : string) : a ++ "" = a.
Proof. induction a as [|x a IH]; cbn; [reflexivity | now rewrite IH]. Qed.

Lemma nochar_app c a b : nochar c (a ++ b) = nochar c a && nochar c b.
Proof.
  induction a as [|x a IH]; cbn; [reflexivity|].
  now rewrite IH, andb_assoc.
Qed.

Lemma plain_app a b : plain a = true -> plain b = true -> plain (a ++ b) = true.
Proof. unfold plain. rewrite !nochar_app, !andb_true_iff. tauto. Qed.

Lemma plain_join sep l :
  plain sep = true -> Forall (fun s => plain s = true) l ->
  plain (join sep l) = true.
Proof.
  intros Hs Hl. induction Hl as [|s l Hp Hl IH]; [reflexivity|].
  destruct l as [|s' l]; [exact Hp|].
  change (join sep (s :: s' :: l)) with (s ++ sep ++ join sep (s' :: l)).
  auto using plain_app.
Qed.

Lemma plain_join_map {A : Type} (f : A -> string) sep l :
  plain sep = true -> (forall a, plain (f a) = true) ->
  plain (join sep (map f l)) = true.
Proof.
  intros Hs Hf. apply plain_join; [exact Hs|].
  apply Forall_forall. intros s Hin. apply in_map_iff in Hin as (a & <- & _).
  apply Hf.
Qed.

Lemma plain_join_repeat sep s n :
  plain sep = true -> plain s = true -> plain (join sep (repeat s n)) = true.
Proof.
  intros Hs Hp. apply plain_join; [exact Hs|].
  apply Forall_forall. intros t Hin. now apply repeat_spec in Hin as ->.
Qed.

Lemma plain_float_str `{FloatRepr} f : plain (float_str f) = true.
Proof.
  unfold float_str. induction (float_repr f) as [|d l IH]; [reflexivity|].
  cbn [map string_of_list_ascii]. unfold plain in *. cbn [nochar].
  rewrite !andb_true_iff in *. now destruct d.
Qed.

Lemma plain_vec_text `{FloatRepr} v : plain (vec_text v) = true.
Proof.
  unfold vec_text. repeat apply plain_app; solve [apply plain_float_str | reflexivity].
Qed.

Lemma plain_uint d : plain (NilEmpty.string_of_uint d) = true.
Proof.
  unfold plain. induction d; cbn [NilEmpty.string_of_uint nochar];
    rewrite ?andb_true_iff in *; try tauto; now repeat split.
Qed.

Lemma plain_nz_uint d : plain (NilZero.string_of_uint d) = true.
Proof.
  unfold NilZero.string_of_uint.
  destruct d; first [reflexivity | apply plain_uint].
Qed.

Lemma plain_int_str z : plain (int_str z) = true.
Proof.
  unfold int_str, NilZero.string_of_int.
  destruct (Z.to_int z) as [d|d]; [apply plain_nz_uint|].
  change (String "-" (NilZero.string_of_uint d))
    with ("-" ++ NilZero.string_of_uint d).
  apply plain_app; [reflexivity | apply plain_nz_uint].
Qed.

Lemma plain_face_text f : plain (face_text f) = true.
Proof.
  unfold face_text. apply plain_join_map; [reflexivity | apply plain_int_str].
Qed.

Lemma plain_nochar_dquote s : plain s = true -> nochar dquote s = true.
Proof. unfold plain. rewrite !andb_true_iff. tauto. Qed.

(** *** The reader on a text put together from pieces *)

Lemma run_app st a b : run st (a ++ b) = run (run st a) b.
Proof. revert st. induction a as [|c a IH]; intro st; cbn; auto. Qed.

Lemma run_join st l : run st (join "" l) = fold_left run l st.
Proof.
  revert st. induction l as [|a l IH]; intro st; [reflexivity|].
  destruct l as [|b l]; [reflexivity|].
  change (join "" (a :: b :: l)) with (a ++ join "" (b :: l)).
  now rewrite run_app, IH.
Qed.

Lemma fold_step st st' p ps R :
  run st p = st' -> fold_left run ps st' = R -> fold_left run (p :: ps) st = R.
Proof. now intros <- <-. Qed.

(** A piece without a double quote, met inside a value, joins the value. *)
Lemma run_val ts k v h :
  nochar dquote h = true ->
  run {| toks := ts; at_ := Val k v |} h
  = {| toks := ts; at_ := Val k (v ++ h) |}.
Proof.
  revert v. induction h as [|c h IH]; intros v Hh; cbn [run].
  - now rewrite append_nil_r.
  - cbn [nochar] in Hh. apply andb_true_iff in Hh as [Hc Hh].
    unfold step. cbn [at_ toks].
    destruct (c =? dquote)%char; [discriminate|].
    rewrite IH by assumption. now rewrite append_assoc.
Qed.

(** A plain piece met inside a tag leaves the reader inside the tag. *)
Lemma run_inside ts w h :
  plain h = true ->
  run {| toks := ts; at_ := Inside w |} h
  = {| toks := ts; at_ := Inside (trail w h) |}.
Proof.
  revert w. induction h as [|c h IH]; intros w Hh; [reflexivity|].
  unfold plain in Hh. cbn [nochar] in Hh.
  rewrite !andb_true_iff in Hh. destruct Hh as [[[He Hh1] [Hg Hh2]] [_ Hh3]].
  cbn [run trail]. unfold step, inside. cbn [at_ toks].
  destruct (c =? ">")%char; [discriminate|].
  destruct (c =? "=")%char; [discriminate|].
  assert (Hp : plain h = true) by (unfold plain; now rewrite Hh1, Hh2, Hh3).
  destruct (is_name_char c); now rewrite IH.
Qed.

(** *** Running a formatter, and reading what it wrote *)

(** Computation that leaves the substituted texts as they stand. *)
Ltac compute_text :=
  cbv -[append float_str int_str join math.degrees trail vec_text face_text
        x y z Angle Axis Base Rotation multVec cross Name Topology
        PrimFloat.mul PrimFloat.ltb].

Ltac plainness :=
  solve [ repeat first
    [ assumption
    | apply plain_float_str
    | apply plain_int_str
    | apply plain_vec_text
    | apply plain_nochar_dquote
    | reflexivity ] ].

Ltac piece :=
  lazymatch goal with
  | |- run _ (String _ _) = _ => compute_text; reflexivity
  | |- run {| toks := _; at_ := Val _ _ |} _ = _ => apply run_val; plainness
  | |- run {| toks := _; at_ := Inside _ |} _ = _ => apply run_inside; plainness
  end.

Ltac run_pieces := repeat (eapply fold_step; [piece|]); reflexivity.

(** Turns [read] of a text given by its pieces into the document. *)
Ltac read_pieces :=
  unfold read; rewrite run_join;
  lazymatch goal with
  | |- context [fold_left run ?l ?st] =>
      let E := fresh "E" in
      eassert (E : fold_left run l st = _) by run_pieces;
      rewrite E; clear E
  end;
  cbn [toks]; compute_text;
  rewrite ?append_assoc; cbn [append].

(** Turns a call of [format] on a closed template into the join of its
    pieces. *)
Ltac format_text :=
  unfold format;
  match goal with
  | |- context [parse ?t ?a ?b] =>
      let r := eval vm_compute in (parse t a b) in
      change (parse t a b) with r
  end;
  cbn [bind result_monad];
  compute_text.

Section Documents.
Context `{FloatRepr}.

Lemma write_camera_reads pos rot updir target name :
  plain name = true ->
  exists out,
    write_camera pos rot updir target name = Ok out
    /\ read out
       = [("transform",
           [("rotate",
             float_str (math.degrees (Angle rot)) ++ " "
             ++ vec_text (Axis rot));
            ("translate", vec_text pos);
            ("scale", "1 1 -1")]);
          ("camera", [("type", "perspective")])].
Proof.
  intros Hn. eexists. split.
  - unfold write_camera. format_text. reflexivity.
  - read_pieces. reflexivity.
Qed.

Lemma write_pointlight_reads view location color power :
  plain (Name view) = true ->
  (3 <= List.length color)%nat ->
  exists out,
    write_pointlight view location color power = Ok out
    /\ read out
       = (emission_doc (Name view) (colour_text " " color)
            (float_str (power * 100)%float)
          ++ [("light",
               [("type", "point"); ("co", vec_text location);
                ("strength", "1 1 1")])])%list.
Proof.
  intros Hn Hc.
  destruct color as [|c0 [|c1 [|c2 rest]]]; cbn in Hc; try lia.
  eexists. split.
  - unfold write_pointlight. format_text. reflexivity.
  - read_pieces. reflexivity.
Qed.

Lemma write_arealight_reads name pos size_u size_v color power :
  plain name = true ->
  (3 <= List.length color)%nat ->
  let axis1 := multVec (Rotation pos) (Vector 1 0 0) in
  let axis2 := multVec (Rotation pos) (Vector 0 1 0) in
  exists out,
    write_arealight name pos size_u size_v color power = Ok out
    /\ read out
       = (emission_doc name (colour_text " " color)
            (float_str (power * 100)%float)
          ++ [("light",
               [("type", "area"); ("co", vec_text (Base pos));
                ("strength", "1 1 1");
                ("axisu", vec_text axis1);
                ("axisv", vec_text axis2);
                ("sizeu", float_str size_u);
                ("sizev", float_str size_v);
                ("size", "1");
                ("dir", vec_text (cross axis1 axis2))])])%list.
Proof.
  intros Hn Hc axis1 axis2.
  destruct color as [|c0 [|c1 [|c2 rest]]]; cbn in Hc; try lia.
  assert (E1 : multVec (Rotation pos) (Vector 1 0.0 0.0) = axis1)
    by reflexivity.
  assert (E2 : multVec (Rotation pos) (Vector 0.0 1.0 0.0) = axis2)
    by reflexivity.
  clearbody axis1 axis2.
  eexists. split.
  - unfold write_arealight. cbv zeta. rewrite E1, E2.
    format_text. reflexivity.
  - read_pieces. reflexivity.
Qed.

(** The two comprehensions of [write_object]. *)

Lemma format_point p :
  format "{0.x} {0.y} {0.z}" [vec p] [] = Ok (vec_text p).
Proof. format_text. reflexivity. Qed.

Lemma points_format pts :
  mapM (fun p => format "{0.x} {0.y} {0.z}" [vec p] []) pts
  = Ok (map vec_text pts).
Proof.
  induction pts as [|p pts IH]; [reflexivity|].
  cbn [mapM map]. rewrite format_point, IH. reflexivity.
Qed.

Lemma format_face a b c rest :
  format "{} {} {}" (map VInt (a :: b :: c :: rest)) []
  = Ok (face_text (a :: b :: c :: rest)).
Proof. cbn [map]. format_text. reflexivity. Qed.

Lemma format_face_short f :
  (List.length f < 3)%nat ->
  format "{} {} {}" (map VInt f) [] = Raise IndexError.
Proof.
  intros Hf. destruct f as [|a [|b [|c rest]]]; cbn in Hf; try lia;
    cbn [map]; format_text; reflexivity.
Qed.

Lemma faces_format faces :
  Forall (fun f => (3 <= List.length f)%nat) faces ->
  mapM (fun v => format "{} {} {}" (map VInt v) []) faces
  = Ok (map face_text faces).
Proof.
  induction 1 as [|f faces Hf _ IH]; [reflexivity|].
  destruct f as [|a [|b [|c rest]]]; cbn in Hf; try lia.
  cbn [mapM]. rewrite format_face, IH. reflexivity.
Qed.

Lemma faces_format_short faces :
  Exists (fun f => (List.length f < 3)%nat) faces ->
  mapM (fun v => format "{} {} {}" (map VInt v) []) faces
  = Raise IndexError.
Proof.
  induction faces as [|f faces IH]; intros Hex; [inversion Hex|].
  cbn [mapM].
  destruct (Nat.ltb_spec (List.length f) 3) as [Hlt|Hge].
  - rewrite format_face_short by assumption. reflexivity.
  - destruct f as [|a [|b [|c rest]]]; cbn in Hge; try lia.
    rewrite format_face, IH; [reflexivity|].
    inversion Hex as [? ? Hf|? ? Ht]; subst; [cbn in Hf; lia | exact Ht].
Qed.

Lemma write_object_reads viewobj mesh color alpha :
  plain (Name viewobj) = true ->
  (3 <= List.length color)%nat ->
  Forall (fun f => (3 <= List.length f)%nat) (snd (Topology mesh)) ->
  exists out,
    write_object viewobj mesh color alpha = Ok out
    /\ read out
       = object_doc (Name viewobj) (colour_text ", " color)
           (if (alpha <? 1)%float then Some (float_str alpha) else None)
           (join "  " (map vec_text (fst (Topology mesh))))
           (join "  " (repeat "3" (List.length (snd (Topology mesh)))))
           (join "  " (map face_text (snd (Topology mesh)))).
Proof.
  intros Hn Hc Hf. destruct mesh as [[pts faces]].
  cbn [Topology fst snd] in *.
  destruct color as [|c0 [|c1 [|c2 rest]]]; cbn in Hc; try lia.
  unfold write_object. cbv zeta. cbn [Topology fst snd].
  rewrite points_format, (faces_format _ Hf).
  cbn [bind result_monad]. rewrite length_map.
  assert (HP : plain (join "  " (map vec_text pts)) = true)
    by (apply plain_join_map; [reflexivity | apply plain_vec_text]).
  assert (HI : plain (join "  " (repeat "3" (List.length faces))) = true)
    by (apply plain_join_repeat; reflexivity).
  assert (HV : plain (join "  " (map face_text faces)) = true)
    by (apply plain_join_map; [reflexivity | apply plain_face_text]).
  set (P := join "  " (map vec_text pts)) in *.
  set (I := join "  " (repeat "3" (List.length faces))) in *.
  set (V := join "  " (map face_text faces)) in *.
  clearbody P I V.
  destruct (alpha <? 1)%float; eexists; (split;
    [ format_text; reflexivity | read_pieces; reflexivity ]).
Qed.

End Documents.

(** ** The formatters *)

Section Formatters.
Context `{FloatRepr}.


(** C2: the strength [write_pointlight] and [write_arealight] write for
    the emission is the power times 100. *)
Theorem strength_is_power_times_100 view location name pos size_u size_v
  color power :
  plain (Name view) = true ->
  plain name = true ->
  (3 <= List.length color)%nat ->
  (exists out,
     write_pointlight view location color power = Ok out
     /\ attr "emission" "strength" (read out)
        = Some (float_str (power * 100)%float))
  /\ (exists out,
        write_arealight name pos size_u size_v color power = Ok out
        /\ attr "emission" "strength" (read out)
           = Some (float_str (power * 100)%float)).
Proof.
  intros Hv Hn Hc. split.
  - destruct (write_pointlight_reads view location color power Hv Hc)
      as (out & Hout & Hdoc).
    exists out. split; [exact Hout|]. rewrite Hdoc. reflexivity.
  - destruct (write_arealight_reads name pos size_u size_v color power Hn Hc)
      as (out & Hout & Hdoc).
    exists out. split; [exact Hout|]. rewrite Hdoc. reflexivity.
Qed.

(** C3: [write_arealight] writes as [axisu] and [axisv] the rotation of
    the placement applied to (1,0,0) and to (0,1,0), and as [dir] the cross
    product of the first with the second. *)
Theorem arealight_direction name pos size_u size_v color power :
  plain name = true ->
  (3 <= List.length color)%nat ->
  let axis1 := multVec (Rotation pos) (Vector 1 0 0) in
  let axis2 := multVec (Rotation pos) (Vector 0 1 0) in
  exists out,
    write_arealight name pos size_u size_v color power = Ok out
    /\ attr "light" "axisu" (read out) = Some (vec_text axis1)
    /\ attr "light" "axisv" (read out) = Some (vec_text axis2)
    /\ attr "light" "dir" (read out) = Some (vec_text (cross axis1 axis2)).
Proof.
  intros Hn Hc axis1 axis2.
  destruct (write_arealight_reads name pos size_u size_v color power Hn Hc)
    as (out & Hout & Hdoc).
  exists out. split; [exact Hout|]. rewrite Hdoc.
  repeat split; reflexivity.
Qed.

(** C7: the [rotate] attribute [write_camera] writes is the angle of the
    rotation in degrees, then the three components of its axis; for the
    angle pi/2 the degrees are 90. *)
Theorem camera_rotation_in_degrees pos rot updir target name :
  plain name = true ->
  (exists out,
     write_camera pos rot updir target name = Ok out
     /\ attr "transform" "rotate" (read out)
        = Some (float_str (math.degrees (Angle rot)) ++ " "
                ++ float_str (x (Axis rot)) ++ " "
                ++ float_str (y (Axis rot)) ++ " "
                ++ float_str (z (Axis rot))))
  /\ math.degrees (math.pi / 2) = 90%float.
Proof.
  intros Hn. split; [|reflexivity].
  destruct (write_camera_reads pos rot updir target name Hn)
    as (out & Hout & Hdoc).
  exists out. split; [exact Hout|]. rewrite Hdoc. reflexivity.
Qed.

(** C8: for the mesh of the one triangle (0,0,0), (1,0,0), (0,1,0) with
    the facet (0,1,2), [write_object] writes [verts] as the one triple
    0 1 2, [nverts] as the one entry 3, and [P] as the three points. *)
Theorem triangle_mesh viewobj color alpha :
  plain (Name viewobj) = true ->
  (3 <= List.length color)%nat ->
  exists out,
    write_object viewobj Sample.triangle color alpha = Ok out
    /\ attr "mesh" "verts" (read out) = Some "0 1 2"
    /\ attr "mesh" "nverts" (read out) = Some "3"
    /\ attr "mesh" "P" (read out)
       = Some (vec_text (Vector 0 0 0) ++ "  " ++ vec_text (Vector 1 0 0)
               ++ "  " ++ vec_text (Vector 0 1 0)).
Proof.
  intros Hn Hc.
  destruct (write_object_reads viewobj Sample.triangle color alpha Hn Hc)
    as (out & Hout & Hdoc).
  { repeat constructor. }
  exists out. split; [exact Hout|]. rewrite Hdoc.
  destruct (alpha <? 1)%float; repeat split; reflexivity.
Qed.

(** C10: [write_object] writes one [nverts] entry, 3, for each facet, and
    for each facet its first three indices and no more; a facet of fewer
    than three indices makes it raise instead of writing. *)
Theorem facets_written_as_triangles viewobj mesh color alpha :
  (plain (Name viewobj) = true ->
   (3 <= List.length color)%nat ->
   Forall (fun f => (3 <= List.length f)%nat) (snd (Topology mesh)) ->
   exists out,
     write_object viewobj mesh color alpha = Ok out
     /\ attr "mesh" "nverts" (read out)
        = Some (join "  " (repeat "3" (List.length (snd (Topology mesh)))))
     /\ attr "mesh" "verts" (read out)
        = Some (join "  "
                  (map (fun f => join " " (map int_str (firstn 3 f)))
                       (snd (Topology mesh)))))
  /\ (Exists (fun f => (List.length f < 3)%nat) (snd (Topology mesh)) ->
      write_object viewobj mesh color alpha = Raise IndexError).
Proof.
  split.
  - intros Hn Hc Hf.
    destruct (write_object_reads viewobj mesh color alpha Hn Hc Hf)
      as (out & Hout & Hdoc).
    exists out. split; [exact Hout|]. rewrite Hdoc.
    destruct (alpha <? 1)%float; split; reflexivity.
  - intros Hex. unfold write_object. cbv zeta.
    rewrite points_format, (faces_format_short _ Hex). reflexivity.
Qed.

End Formatters.

(** ** Running the renderer *)

Lemma processes_app es es' :
  processes (es ++ es') = (processes es ++ processes es')%list.
Proof.
  induction es as [|e es IH]; [reflexivity|].
  destruct e; cbn; now rewrite IH.
Qed.

Lemma truthy_nonempty s : s <> "" -> truthy s = true.
Proof. destruct s; [congruence | reflexivity]. Qed.

(** What [render] does once the executable is known. *)
Lemma render_configured project prefix external output width height w :
  stored w "CyclesPath" <> "" ->
  let cmd :=
    command_line (stored w "Prefix") (stored w "CyclesPath")
      (stored w "CyclesParameters") output external width height
      (PageResult project) in
  render project prefix external output width height w
  = (output,
     {| parameters := parameters w;
        exit_status := exit_status w;
        events := (events w ++ [PrintMessage (cmd ++ newline)])
                  ++ [System cmd] |}).
Proof.
  intros Hpath cmd.
  assert (Ecmd :
    (if truthy (stored w "Prefix") then stored w "Prefix" ++ " "
     else stored w "Prefix")
    ++ stored w "CyclesPath" ++ " "
    ++ (((if negb external
          then (stored w "CyclesParameters" ++ " --output " ++ output)
               ++ " --background"
          else stored w "CyclesParameters" ++ " --output " ++ output)
         ++ " --width " ++ int_str width)
        ++ " --height " ++ int_str height)
    ++ " " ++ PageResult project = cmd).
  { unfold cmd, command_line.
    destruct (stored w "Prefix"), external; cbn [truthy negb];
      rewrite ?append_assoc; reflexivity. }
  unfold render, bind, ret, IO_monad, ParamGet, os_system, emit.
  fold render_prefs. fold (stored w "Prefix") (stored w "CyclesPath")
    (stored w "CyclesParameters").
  rewrite (truthy_nonempty _ Hpath). cbn [negb fst snd parameters exit_status events].
  rewrite Ecmd. reflexivity.
Qed.

(** C4: when the stored executable path is empty, [render] prints the
    error message, returns the empty string, and hands no command to the
    operating system. *)
Theorem render_without_executable project prefix external output width height
  w :
  stored w "CyclesPath" = "" ->
  let r := render project prefix external output width height w in
  fst r = ""
  /\ events (snd r) = (events w ++ [PrintError not_located])%list
  /\ processes (events (snd r)) = processes (events w).
Proof.
  intros Hpath r.
  assert (Er : r = ("", {| parameters := parameters w;
                           exit_status := exit_status w;
                           events := events w ++ [PrintError not_located] |})).
  { unfold r, render, bind, ret, IO_monad, ParamGet, emit.
    fold render_prefs. fold (stored w "CyclesPath"). rewrite Hpath.
    reflexivity. }
  rewrite Er. cbn [fst snd events]. repeat split.
  rewrite processes_app. cbn [processes]. apply app_nil_r.
Qed.

(** C5: when the stored executable path is not empty, the command [render]
    hands to the operating system is, in this order, the prefix token if one
    is stored, the executable path, the stored parameters, [--output] and
    the output path, [--background] exactly when [external] is false,
    [--width] and the width, [--height] and the height, and the scene file. *)
Theorem render_command_line project prefix external output width height w :
  stored w "CyclesPath" <> "" ->
  let cmd :=
    command_line (stored w "Prefix") (stored w "CyclesPath")
      (stored w "CyclesParameters") output external width height
      (PageResult project) in
  let r := render project prefix external output width height w in
  events (snd r)
  = (events w ++ [PrintMessage (cmd ++ newline); System cmd])%list
  /\ processes (events (snd r)) = (processes (events w) ++ [cmd])%list.
Proof.
  intros Hpath cmd r. unfold r.
  rewrite (render_configured project prefix external output width height w Hpath).
  fold cmd. cbn [snd events]. rewrite <- app_assoc. split; [reflexivity|].
  rewrite processes_app. reflexivity.
Qed.

(** C6: when the stored executable path is not empty, [render] hands the
    command to the operating system, once, and then returns the output
    path, whatever exit status the operating system answers the command
    with: neither the value nor the events depend on it. *)
Theorem render_returns_output project prefix external output width height w
  status :
  stored w "CyclesPath" <> "" ->
  let cmd :=
    command_line (stored w "Prefix") (stored w "CyclesPath")
      (stored w "CyclesParameters") output external width height
      (PageResult project) in
  let r :=
    render project prefix external output width height
      {| parameters := parameters w;
         exit_status := status;
         events := events w |} in
  fst r = output
  /\ events (snd r)
     = (events w ++ [PrintMessage (cmd ++ newline); System cmd])%list
  /\ processes (events (snd r)) = (processes (events w) ++ [cmd])%list.
Proof.
  intros Hpath cmd r. unfold r.
  rewrite render_configured by exact Hpath.
  cbn [fst snd events parameters]. fold cmd. rewrite <- app_assoc.
  split; [reflexivity|]. split; [reflexivity|].
  rewrite processes_app. reflexivity.
Qed.

(** C9: the [prefix] argument of [render] makes no difference: two calls
    that differ in it alone return the same value and leave the same world,
    the command line included. *)
Theorem render_ignores_prefix_argument project prefix prefix' external output
  width height w :
  render project prefix external output width height w
  = render project prefix' external output width height w.
Proof. reflexivity. Qed.

(** ** The properties on the sample inputs *)


Lemma strength_is_power_times_100_witness :
  plain (Name Sample.box) = true
  /\ plain "Lamp" = true
  /\ (3 <= List.length Sample.grey)%nat
  /\ (exists out,
        write_pointlight (H := shortest_repr)
          Sample.box Sample.origin Sample.grey 0.5 = Ok out
        /\ attr "emission" "strength" (read out) = Some "50.0")
  /\ (exists out,
        write_arealight (H := shortest_repr)
          "Lamp" Sample.placement 2 3 Sample.grey 0.5 = Ok out
        /\ attr "emission" "strength" (read out) = Some "50.0").
Proof.
  assert (Hv : plain (Name Sample.box) = true) by reflexivity.
  assert (Hn : plain "Lamp" = true) by reflexivity.
  assert (Hc : (3 <= List.length Sample.grey)%nat) by (cbn; lia).
  destruct (strength_is_power_times_100 (H := shortest_repr)
              Sample.box Sample.origin "Lamp" Sample.placement 2 3
              Sample.grey 0.5 Hv Hn Hc)
    as ((out1 & Hout1 & Hs1) & (out2 & Hout2 & Hs2)).
  split; [exact Hv|]. split; [exact Hn|]. split; [exact Hc|]. split.
  - exists out1. split; [exact Hout1|]. rewrite Hs1. vm_compute. reflexivity.
  - exists out2. split; [exact Hout2|]. rewrite Hs2. vm_compute. reflexivity.
Defined.

Lemma arealight_direction_witness :
  plain "Lamp" = true
  /\ (3 <= List.length Sample.grey)%nat
  /\ exists out,
       write_arealight (H := shortest_repr)
         "Lamp" Sample.placement 2 3 Sample.grey 0.5 = Ok out
       /\ attr "light" "axisu" (read out) = Some "-0.0 1.0 0.0"
       /\ attr "light" "axisv" (read out) = Some "-1.0 0.0 0.0"
       /\ attr "light" "dir" (read out) = Some "0.0 0.0 1.0".
Proof.
  assert (Hn : plain "Lamp" = true) by reflexivity.
  assert (Hc : (3 <= List.length Sample.grey)%nat) by (cbn; lia).
  split; [exact Hn|]. split; [exact Hc|].
  destruct (arealight_direction (H := shortest_repr)
              "Lamp" Sample.placement 2 3 Sample.grey 0.5 Hn Hc)
    as (out & Hout & Hu & Hv & Hd).
  exists out. split; [exact Hout|].
  rewrite Hu, Hv, Hd. vm_compute. auto.
Defined.

Lemma camera_rotation_in_degrees_witness :
  plain "Camera" = true
  /\ exists out,
       write_camera (H := shortest_repr)
         Sample.origin Sample.quarter_turn Sample.origin Sample.origin
         "Camera" = Ok out
       /\ attr "transform" "rotate" (read out) = Some "90.0 0.0 0.0 1.0".
Proof.
  assert (Hn : plain "Camera" = true) by reflexivity.
  split; [exact Hn|].
  destruct (camera_rotation_in_degrees (H := shortest_repr)
              Sample.origin Sample.quarter_turn Sample.origin Sample.origin
              "Camera" Hn)
    as ((out & Hout & Hr) & _).
  exists out. split; [exact Hout|]. rewrite Hr. vm_compute. reflexivity.
Defined.

Lemma triangle_mesh_witness :
  plain (Name Sample.box) = true
  /\ (3 <= List.length Sample.grey)%nat
  /\ exists out,
       write_object (H := shortest_repr)
         Sample.box Sample.triangle Sample.grey 1 = Ok out
       /\ attr "mesh" "verts" (read out) = Some "0 1 2"
       /\ attr "mesh" "nverts" (read out) = Some "3"
       /\ attr "mesh" "P" (read out)
          = Some "0.0 0.0 0.0  1.0 0.0 0.0  0.0 1.0 0.0".
Proof.
  assert (Hn : plain (Name Sample.box) = true) by reflexivity.
  assert (Hc : (3 <= List.length Sample.grey)%nat) by (cbn; lia).
  split; [exact Hn|]. split; [exact Hc|].
  destruct (triangle_mesh (H := shortest_repr)
              Sample.box Sample.grey 1 Hn Hc)
    as (out & Hout & Hv & Hi & HP).
  exists out. split; [exact Hout|].
  rewrite Hv, Hi, HP. vm_compute. auto.
Defined.

Lemma facets_written_as_triangles_witness :
  plain (Name Sample.box) = true
  /\ (3 <= List.length Sample.grey)%nat
  /\ Forall (fun f => (3 <= List.length f)%nat) (snd (Topology Sample.quad))
  /\ Exists (fun f => (List.length f < 3)%nat) (snd (Topology Sample.broken))
  /\ (exists out,
        write_object (H := shortest_repr)
          Sample.box Sample.quad Sample.grey 1 = Ok out
        /\ attr "mesh" "nverts" (read out) = Some "3"
        /\ attr "mesh" "verts" (read out) = Some "0 1 2")
  /\ write_object (H := shortest_repr)
       Sample.box Sample.broken Sample.grey 1 = Raise IndexError.
Proof.
  assert (Hn : plain (Name Sample.box) = true) by reflexivity.
  assert (Hc : (3 <= List.length Sample.grey)%nat) by (cbn; lia).
  assert (Hf : Forall (fun f => (3 <= List.length f)%nat)
                      (snd (Topology Sample.quad)))
    by (repeat constructor).
  assert (Hex : Exists (fun f => (List.length f < 3)%nat)
                       (snd (Topology Sample.broken)))
    by (apply Exists_cons_hd; cbn; lia).
  split; [exact Hn|]. split; [exact Hc|]. split; [exact Hf|].
  split; [exact Hex|]. split.
  - destruct (facets_written_as_triangles (H := shortest_repr)
                Sample.box Sample.quad Sample.grey 1) as (Hok & _).
    destruct (Hok Hn Hc Hf) as (out & Hout & Hi & Hv).
    exists out. split; [exact Hout|].
    rewrite Hi, Hv. vm_compute. auto.
  - destruct (facets_written_as_triangles (H := shortest_repr)
                Sample.box Sample.broken Sample.grey 1) as (_ & Hfail).
    exact (Hfail Hex).
Defined.

Lemma render_without_executable_witness :
  stored Sample.unconfigured "CyclesPath" = ""
  /\ fst (render Sample.project "time" false "/tmp/out.png" 800 600
            Sample.unconfigured) = ""
  /\ events (snd (render Sample.project "time" false "/tmp/out.png" 800 600
                    Sample.unconfigured))
     = [PrintError not_located]
  /\ processes
       (events (snd (render Sample.project "time" false "/tmp/out.png"
                       800 600 Sample.unconfigured))) = [].
Proof.
  assert (Hp : stored Sample.unconfigured "CyclesPath" = "") by reflexivity.
  split; [exact Hp|].
  exact (render_without_executable Sample.project "time" false
           "/tmp/out.png" 800 600 Sample.unconfigured Hp).
Defined.

Lemma render_command_line_witness :
  stored Sample.configured "CyclesPath" <> ""
  /\ processes
       (events (snd (render Sample.project "time" false "/tmp/out.png"
                       800 600 Sample.configured)))
     = ["nice /usr/bin/cycles --samples 8 --output /tmp/out.png --background --width 800 --height 600 /tmp/scene.xml"]
  /\ processes
       (events (snd (render Sample.project "time" true "/tmp/out.png"
                       800 600 Sample.configured)))
     = ["nice /usr/bin/cycles --samples 8 --output /tmp/out.png --width 800 --height 600 /tmp/scene.xml"].
Proof.
  assert (Hp : stored Sample.configured "CyclesPath" <> "")
    by (cbv; discriminate).
  split; [exact Hp|]. split.
  - destruct (render_command_line Sample.project "time" false "/tmp/out.png"
                800 600 Sample.configured Hp) as (_ & Hcmd).
    rewrite Hcmd. reflexivity.
  - destruct (render_command_line Sample.project "time" true "/tmp/out.png"
                800 600 Sample.configured Hp) as (_ & Hcmd).
    rewrite Hcmd. reflexivity.
Defined.

Lemma render_returns_output_witness :
  let r :=
    render Sample.project "time" false "/tmp/out.png" 800 600
      Sample.configured in
  stored Sample.configured "CyclesPath" <> ""
  /\ exit_status Sample.configured
       "nice /usr/bin/cycles --samples 8 --output /tmp/out.png --background --width 800 --height 600 /tmp/scene.xml"
     = 1%Z
  /\ fst r = "/tmp/out.png"
  /\ processes (events (snd r))
     = ["nice /usr/bin/cycles --samples 8 --output /tmp/out.png --background --width 800 --height 600 /tmp/scene.xml"].
Proof.
  intros r.
  assert (Hp : stored Sample.configured "CyclesPath" <> "")
    by (cbv; discriminate).
  split; [exact Hp|]. split; [reflexivity|].
  destruct (render_returns_output Sample.project "time" false "/tmp/out.png"
              800 600 Sample.configured (exit_status Sample.configured) Hp)
    as (Hout & _ & Hcmd).
  split; [exact Hout | exact Hcmd].
Defined.

(** *** What the formatters write on the sample inputs *)

(** [shortest_repr] on a few floats, against what the interpreter prints for
    them. *)
Example shortest_repr_samples :
  map (float_str (H := shortest_repr))
    [0.5; 90; 1e16; 1e22; 0x1.999999999999ap-4;
     0x1.999999999999ap-4 + 0x1.999999999999ap-3; 1 / 3; 0x1p-1074; -0;
     infinity; nan; 0x1.fffffffffffffp+1023; 0x1.1eb851eb851ecp-4 * 100]%float
  = ["0.5"; "90.0"; "1e+16"; "1e+22"; "0.1";
     "0.30000000000000004"; "0.3333333333333333"; "5e-324"; "-0.0";
     "inf"; "nan"; "1.7976931348623157e+308"; "7.000000000000001"].
Proof. vm_compute. reflexivity. Qed.

Example write_camera_sample :
  write_camera (H := shortest_repr)
    Sample.origin Sample.quarter_turn Sample.origin Sample.origin "Camera"
  = Ok (src "
    <!-- Generated by FreeCAD - Camera 'Camera' -->
    <transform rotate=`90.0 0.0 0.0 1.0`
               translate=`0.0 0.0 0.0`
               scale=`1 1 -1`>
        <camera type=`perspective`/>
    </transform>").
Proof. vm_compute. reflexivity. Qed.

Example write_object_sample :
  write_object (H := shortest_repr)
    Sample.box Sample.quad Sample.grey 0.5
  = Ok (src "
    <!-- Generated by FreeCAD - Object 'Box' -->
    <shader name=`Box_mat`>
        <diffuse_bsdf name=`Box_bsdf` color=`0.5, 0.5, 0.5`/>
        <transparent_bsdf name=`Box_trans` color=`1.0, 1.0, 1.0`/>
        <mix_closure name=`Box_mix` fac=`0.5`/>
        <connect from=`Box_trans bsdf`  to=`Box_mix closure1`/>
        <connect from=`Box_bsdf bsdf`   to=`Box_mix closure2`/>
        <connect from=`Box_mix closure` to=`output surface`/>
    </shader>
    <state shader=`Box_mat`>
        <mesh P=`0.0 0.0 0.0  1.0 0.0 0.0  1.0 1.0 0.0  0.0 1.0 0.0`
              nverts=`3`
              verts=`0 1 2`/>
    </state>
").
Proof. vm_compute. reflexivity. Qed.

Example write_arealight_sample :
  write_arealight (H := shortest_repr)
    "Lamp" Sample.placement 2 3 Sample.grey 0.5
  = Ok (src "
    <!-- Generated by FreeCAD - Area light 'Lamp' -->
    <shader name=`Lamp_shader`>
        <emission name=`Lamp_emit`
                  color=`0.5 0.5 0.5`
                  strength=`50.0`/>
        <connect from=`Lamp_emit emission`
                 to=`output surface`/>
    </shader>
    <state shader=`Lamp_shader`>
        <light type=`area`
               co=`1.0 2.0 3.0`
               strength=`1 1 1`
               axisu=`-0.0 1.0 0.0`
               axisv=`-1.0 0.0 0.0`
               sizeu=`2.0`
               sizev=`3.0`
               size=`1`
               dir=`0.0 0.0 1.0` />
    </state>
").
Proof. vm_compute. reflexivity. Qed.

(** ** More on the formatters *)

Section Outcomes.
Context `{FloatRepr}.

Lemma write_object_ok viewobj mesh color alpha :
  (3 <= List.length color)%nat ->
  Forall (fun f => (3 <= List.length f)%nat) (snd (Topology mesh)) ->
  exists out, write_object viewobj mesh color alpha = Ok out.
Proof.
  intros Hc Hf. destruct mesh as [[pts faces]]. cbn [Topology fst snd] in *.
  destruct color as [|c0 [|c1 [|c2 rest]]]; cbn in Hc; try lia.
  unfold write_object. cbv zeta. cbn [Topology fst snd].
  rewrite points_format, (faces_format _ Hf). cbn [bind result_monad].
  generalize (join "  " (map vec_text pts))
             (join "  " (repeat "3" (List.length (map face_text faces))))
             (join "  " (map face_text faces)).
  intros P I V.
  destruct (alpha <? 1)%float; eexists; format_text; reflexivity.
Qed.

Lemma write_object_short_colour viewobj mesh color alpha :
  (List.length color < 3)%nat ->
  Forall (fun f => (3 <= List.length f)%nat) (snd (Topology mesh)) ->
  write_object viewobj mesh color alpha = Raise IndexError.
Proof.
  intros Hc Hf. destruct mesh as [[pts faces]]. cbn [Topology fst snd] in *.
  unfold write_object. cbv zeta. cbn [Topology fst snd].
  rewrite points_format, (faces_format _ Hf). cbn [bind result_monad].
  generalize (join "  " (map vec_text pts))
             (join "  " (repeat "3" (List.length (map face_text faces))))
             (join "  " (map face_text faces)).
  intros P I V.
  destruct color as [|c0 [|c1 [|c2 rest]]]; cbn in Hc; try lia;
    destruct (alpha <? 1)%float; format_text; reflexivity.
Qed.

Lemma short_facet_dec (faces : list (list Z)) :
  Forall (fun f => (3 <= List.length f)%nat) faces
  \/ Exists (fun f => (List.length f < 3)%nat) faces.
Proof.
  induction faces as [|f faces [IH|IH]].
  - left. constructor.
  - destruct (le_lt_dec 3 (List.length f)) as [Hf|Hf].
    + left. now constructor.
    + right. now apply Exists_cons_hd.
  - right. now apply Exists_cons_tl.
Qed.

(** X1: [write_object] writes a text when the colour has three components
    or more and every facet three indices or more; on every other input it
    raises [IndexError], and nothing else. *)
Theorem write_object_outcome viewobj mesh color alpha :
  ((3 <= List.length color)%nat
   /\ Forall (fun f => (3 <= List.length f)%nat) (snd (Topology mesh)) ->
   exists out, write_object viewobj mesh color alpha = Ok out)
  /\ (~ ((3 <= List.length color)%nat
         /\ Forall (fun f => (3 <= List.length f)%nat) (snd (Topology mesh))) ->
      write_object viewobj mesh color alpha = Raise IndexError).
Proof.
  split.
  - intros [Hc Hf]. now apply write_object_ok.
  - intros Hno.
    destruct (short_facet_dec (snd (Topology mesh))) as [Hf|Hex].
    + apply write_object_short_colour; [|exact Hf].
      destruct (le_lt_dec 3 (List.length color)); [tauto | assumption].
    + unfold write_object. cbv zeta.
      rewrite points_format, (faces_format_short _ Hex). reflexivity.
Qed.

(** X2: [write_pointlight] and [write_arealight] write a text when the
    colour has three components or more, and raise [IndexError] when it has
    fewer. *)
Theorem light_outcome view location name pos size_u size_v color power :
  ((3 <= List.length color)%nat ->
   (exists out, write_pointlight view location color power = Ok out)
   /\ (exists out,
         write_arealight name pos size_u size_v color power = Ok out))
  /\ ((List.length color < 3)%nat ->
      write_pointlight view location color power = Raise IndexError
      /\ write_arealight name pos size_u size_v color power
         = Raise IndexError).
Proof.
  split; intros Hc.
  - destruct color as [|c0 [|c1 [|c2 rest]]]; cbn in Hc; try lia.
    split; eexists.
    + unfold write_pointlight. format_text. reflexivity.
    + unfold write_arealight. cbv zeta. format_text. reflexivity.
  - destruct color as [|c0 [|c1 [|c2 rest]]]; cbn in Hc; try lia;
      (split;
       [ unfold write_pointlight; format_text; reflexivity
       | unfold write_arealight; cbv zeta; format_text; reflexivity ]).
Qed.

(** X3: [write_camera] never raises, whatever the name, and what it writes
    does not depend on [updir] or [target]. *)
Theorem write_camera_never_raises pos rot updir target updir' target' name :
  exists out,
    write_camera pos rot updir target name = Ok out
    /\ write_camera pos rot updir' target' name = Ok out.
Proof.
  eexists. split; unfold write_camera; format_text; reflexivity.
Qed.

(** X4: the [translate] attribute [write_camera] writes is the position,
    the scale is 1 1 -1, and one camera is declared, a perspective one. *)
Theorem camera_placement pos rot updir target name :
  plain name = true ->
  exists out,
    write_camera pos rot updir target name = Ok out
    /\ attr "transform" "translate" (read out)
       = Some (float_str (x pos) ++ " " ++ float_str (y pos) ++ " "
               ++ float_str (z pos))
    /\ attr "transform" "scale" (read out) = Some "1 1 -1"
    /\ all "camera" (read out) = [[("type", "perspective")]].
Proof.
  intros Hn.
  destruct (write_camera_reads pos rot updir target name Hn)
    as (out & Hout & Hdoc).
  exists out. split; [exact Hout|]. rewrite Hdoc. repeat split.
Qed.

(** X5: the components of a colour beyond the third make no difference to
    [write_object], [write_pointlight] or [write_arealight]. *)
Theorem colour_beyond_third_ignored viewobj mesh view location name pos
  size_u size_v r g b rest rest' alpha power :
  write_object viewobj mesh (r :: g :: b :: rest) alpha
  = write_object viewobj mesh (r :: g :: b :: rest') alpha
  /\ write_pointlight view location (r :: g :: b :: rest) power
     = write_pointlight view location (r :: g :: b :: rest') power
  /\ write_arealight name pos size_u size_v (r :: g :: b :: rest) power
     = write_arealight name pos size_u size_v (r :: g :: b :: rest') power.
Proof.
  split; [|split].
  - unfold write_object. cbv zeta.
    destruct (mapM _ (fst (Topology mesh))) as [points|e]; [|reflexivity].
    destruct (mapM _ (snd (Topology mesh))) as [verts|e]; [|reflexivity].
    cbn [bind result_monad].
    generalize (join "  " points)
               (join "  " (repeat "3" (List.length verts)))
               (join "  " verts).
    intros P I V.
    destruct (alpha <? 1)%float; format_text; reflexivity.
  - unfold write_pointlight. format_text. reflexivity.
  - unfold write_arealight. cbv zeta. format_text. reflexivity.
Qed.

(** X6: the [P] attribute [write_object] writes lists the coordinates of
    every point of the mesh, in order, and the colour of the diffuse shader
    is the first three components of the colour, a comma and a blank between
    them. *)
Theorem mesh_points_listed viewobj mesh color alpha :
  plain (Name viewobj) = true ->
  (3 <= List.length color)%nat ->
  Forall (fun f => (3 <= List.length f)%nat) (snd (Topology mesh)) ->
  exists out,
    write_object viewobj mesh color alpha = Ok out
    /\ attr "mesh" "P" (read out)
       = Some (join "  "
                 (map (fun p => float_str (x p) ++ " " ++ float_str (y p)
                                ++ " " ++ float_str (z p))
                      (fst (Topology mesh))))
    /\ attr "diffuse_bsdf" "color" (read out)
       = Some (float_str (nth 0 color 0%float) ++ ", "
               ++ float_str (nth 1 color 0%float) ++ ", "
               ++ float_str (nth 2 color 0%float)).
Proof.
  intros Hn Hc Hf.
  destruct (write_object_reads viewobj mesh color alpha Hn Hc Hf)
    as (out & Hout & Hdoc).
  exists out. split; [exact Hout|]. rewrite Hdoc.
  destruct (alpha <? 1)%float; split; reflexivity.
Qed.

(** X7: in the text of [write_object], [write_pointlight] and
    [write_arealight] the state names the very shader the text declares. *)
Theorem state_names_declared_shader viewobj mesh view location name pos
  size_u size_v color alpha power :
  plain (Name viewobj) = true ->
  plain (Name view) = true ->
  plain name = true ->
  (3 <= List.length color)%nat ->
  Forall (fun f => (3 <= List.length f)%nat) (snd (Topology mesh)) ->
  (exists out,
     write_object viewobj mesh color alpha = Ok out
     /\ attr "shader" "name" (read out) = Some (Name viewobj ++ "_mat")
     /\ attr "state" "shader" (read out) = attr "shader" "name" (read out))
  /\ (exists out,
        write_pointlight view location color power = Ok out
        /\ attr "shader" "name" (read out) = Some (Name view ++ "_shader")
        /\ attr "state" "shader" (read out) = attr "shader" "name" (read out))
  /\ (exists out,
        write_arealight name pos size_u size_v color power = Ok out
        /\ attr "shader" "name" (read out) = Some (name ++ "_shader")
        /\ attr "state" "shader" (read out) = attr "shader" "name" (read out)).
Proof.
  intros Ho Hv Hn Hc Hf. split; [|split].
  - destruct (write_object_reads viewobj mesh color alpha Ho Hc Hf)
      as (out & Hout & Hdoc).
    exists out. split; [exact Hout|]. rewrite Hdoc.
    destruct (alpha <? 1)%float; split; reflexivity.
  - destruct (write_pointlight_reads view location color power Hv Hc)
      as (out & Hout & Hdoc).
    exists out. split; [exact Hout|]. rewrite Hdoc. split; reflexivity.
  - destruct (write_arealight_reads name pos size_u size_v color power Hn Hc)
      as (out & Hout & Hdoc).
    exists out. split; [exact Hout|]. rewrite Hdoc. split; reflexivity.
Qed.

(** X8: the one light [write_pointlight] writes is a point light at the
    location, and its own strength is 1 1 1 whatever the power. *)
Theorem pointlight_position view location color power :
  plain (Name view) = true ->
  (3 <= List.length color)%nat ->
  exists out,
    write_pointlight view location color power = Ok out
    /\ all "light" (read out)
       = [[("type", "point");
           ("co", float_str (x location) ++ " " ++ float_str (y location)
                  ++ " " ++ float_str (z location));
           ("strength", "1 1 1")]].
Proof.
  intros Hv Hc.
  destruct (write_pointlight_reads view location color power Hv Hc)
    as (out & Hout & Hdoc).
  exists out. split; [exact Hout|]. rewrite Hdoc. reflexivity.
Qed.

(** X9: the light [write_arealight] writes is an area light at the base of
    the placement, with the two sizes given, the size 1 and the strength
    1 1 1. *)
Theorem arealight_extent name pos size_u size_v color power :
  plain name = true ->
  (3 <= List.length color)%nat ->
  exists out,
    write_arealight name pos size_u size_v color power = Ok out
    /\ attr "light" "type" (read out) = Some "area"
    /\ attr "light" "co" (read out) = Some (vec_text (Base pos))
    /\ attr "light" "sizeu" (read out) = Some (float_str size_u)
    /\ attr "light" "sizev" (read out) = Some (float_str size_v)
    /\ attr "light" "size" (read out) = Some "1"
    /\ attr "light" "strength" (read out) = Some "1 1 1".
Proof.
  intros Hn Hc.
  destruct (write_arealight_reads name pos size_u size_v color power Hn Hc)
    as (out & Hout & Hdoc).
  exists out. split; [exact Hout|]. rewrite Hdoc. repeat split.
Qed.

End Outcomes.

(** X10: [render] leaves the stored preferences as they are, and only adds
    to the events. *)
Theorem render_keeps_preferences project prefix external output width height
  w :
  let w' := snd (render project prefix external output width height w) in
  parameters w' = parameters w
  /\ exit_status w' = exit_status w
  /\ exists added, events w' = (events w ++ added)%list.
Proof.
  intros w'. subst w'.
  destruct (String.string_dec (stored w "CyclesPath") "") as [He|Hne].
  - assert (Er : snd (render project prefix external output width height w)
                 = {| parameters := parameters w;
                      exit_status := exit_status w;
                      events := events w ++ [PrintError not_located] |}).
    { unfold render, bind, ret, IO_monad, ParamGet, emit.
      fold render_prefs. fold (stored w "CyclesPath"). rewrite He.
      reflexivity. }
    rewrite Er. cbn. repeat split. eexists. reflexivity.
  - rewrite (render_configured project prefix external output width height
               w Hne).
    cbn. repeat split. rewrite <- app_assoc. eexists. reflexivity.
Qed.

(** ** The base classes *)

Section Dictionaries.
Import RenderBase.
Context {V : Type}.
Implicit Types (d o : dict V) (k : string).

Lemma lookup_app k d o :
  lookup k (d ++ o)%list
  = match lookup k d with Some v => Some v | None => lookup k o end.
Proof.
  induction d as [|[k' v'] d IH]; [reflexivity|].
  cbn [lookup app]. destruct (k =? k')%string; [reflexivity | exact IH].
Qed.

Lemma lookup_setitem k k' v d :
  lookup k (setitem k' v d)
  = if (k =? k')%string then Some v else lookup k d.
Proof.
  induction d as [|[k1 v1] d IH]; cbn [setitem lookup]; [reflexivity|].
  destruct (String.eqb_spec k' k1) as [->|Hne]; cbn [lookup].
  - destruct (k =? k1)%string; reflexivity.
  - rewrite IH. destruct (String.eqb_spec k k1) as [->|Hne'];
      [|reflexivity].
    destruct (String.eqb_spec k1 k'); [congruence | reflexivity].
Qed.

Lemma lookup_update k d o :
  lookup k (update d o)
  = match binding k o with Some v => Some v | None => lookup k d end.
Proof.
  unfold update, binding. revert d.
  induction o as [|[k1 v1] o IH]; intros d; [reflexivity|].
  cbn [fold_left rev fst snd]. rewrite IH, lookup_app, lookup_setitem.
  destruct (lookup k (rev o)); [reflexivity|].
  cbn [lookup]. destruct (k =? k1)%string; reflexivity.
Qed.

Lemma keys_setitem k k' v d :
  In k (keys (setitem k' v d)) <-> k = k' \/ In k (keys d).
Proof.
  unfold keys.
  induction d as [|[k1 v1] d IH]; cbn [setitem map fst In].
  - intuition congruence.
  - destruct (String.eqb_spec k' k1) as [->|Hne]; cbn [map fst In].
    + intuition congruence.
    + rewrite IH. intuition congruence.
Qed.

Lemma NoDup_setitem k v d :
  NoDup (keys d) -> NoDup (keys (setitem k v d)).
Proof.
  unfold keys.
  induction d as [|[k1 v1] d IH]; cbn [setitem map fst]; intros Hd.
  - repeat constructor. intros [].
  - inversion Hd as [|? ? Hnin Hd']; subst.
    destruct (String.eqb_spec k k1) as [->|Hne]; cbn [map fst].
    + now constructor.
    + constructor; [|now apply IH].
      intros Hin. apply keys_setitem in Hin as [->|Hin]; [congruence|].
      exact (Hnin Hin).
Qed.

Lemma keys_update k d o :
  In k (keys (update d o))
  <-> In k (keys d) \/ In k (keys o).
Proof.
  unfold update. revert d.
  induction o as [|[k1 v1] o IH]; intros d; cbn [fold_left fst snd].
  - cbn. tauto.
  - rewrite IH, keys_setitem. cbn [keys map fst In]. intuition congruence.
Qed.

Lemma NoDup_update d o :
  NoDup (keys d) -> NoDup (keys (update d o)).
Proof.
  unfold update. revert d.
  induction o as [|[k1 v1] o IH]; intros d Hd; [exact Hd|].
  cbn [fold_left]. apply IH. now apply NoDup_setitem.
Qed.

End Dictionaries.

Section Classes.
Import RenderBase.
Context {Obj St : Type}.

Lemma own_values_cons {V : Type} (cls : class_t Obj St) (bases : mro_t Obj St)
  (attr : class_t Obj St -> option V) :
  own_values (cls :: bases) attr
  = (own_values bases attr
     ++ match attr cls with Some v => [v] | None => [] end)%list.
Proof.
  unfold own_values. cbn [rev]. rewrite flat_map_app. cbn [flat_map].
  now rewrite app_nil_r.
Qed.

(** A class adds its own table to the merged table of its bases. *)
Lemma cumulative_cons {V : Type} (cls : class_t Obj St) (bases : mro_t Obj St)
  (attr : class_t Obj St -> option (dict V)) :
  get_cumulative_dict_attribute (cls :: bases) attr
  = match attr cls with
    | Some d =>
        update (get_cumulative_dict_attribute bases attr) d
    | None => get_cumulative_dict_attribute bases attr
    end.
Proof.
  unfold get_cumulative_dict_attribute. cbv zeta.
  rewrite own_values_cons, fold_left_app.
  destruct (attr cls); reflexivity.
Qed.

(** The merged dictionary, key by key. *)
Lemma lookup_cumulative {V : Type} (mro : mro_t Obj St)
  (attr : class_t Obj St -> option (dict V)) (k : string) :
  lookup k (get_cumulative_dict_attribute mro attr)
  = resolve attr k mro.
Proof.
  induction mro as [|cls bases IH]; [reflexivity|].
  rewrite cumulative_cons. cbn [resolve].
  destruct (attr cls) as [d|]; [|exact IH].
  rewrite lookup_update, IH. reflexivity.
Qed.

(** X11: what the merged dictionary binds a key to is what the nearest
    class in the resolution order that binds the key binds it to: a class
    overrides its bases key by key. *)
Theorem cumulative_lookup {V : Type} (mro : mro_t Obj St)
  (attr : class_t Obj St -> option (dict V))
  (k : string) :
  lookup k (get_cumulative_dict_attribute mro attr)
  = resolve attr k mro.
Proof. apply lookup_cumulative. Qed.

(** X12: the keys of the merged dictionary are distinct, and they are the
    keys of the dictionaries of all the classes that assign the attribute. *)
Theorem cumulative_keys {V : Type} (mro : mro_t Obj St)
  (attr : class_t Obj St -> option (dict V)) :
  let merged := get_cumulative_dict_attribute mro attr in
  NoDup (keys merged)
  /\ forall k,
       In k (keys merged)
       <-> exists cls d,
             In cls mro /\ attr cls = Some d /\ In k (keys d).
Proof.
  induction mro as [|cls bases [IHn IHk]]; cbv zeta.
  - split; [constructor|]. intros k.
    split; [intros [] | intros (? & ? & [] & _)].
  - rewrite cumulative_cons. cbv zeta in IHn, IHk.
    destruct (attr cls) as [d|] eqn:Hattr.
    + split; [now apply NoDup_update|]. intros k.
      rewrite keys_update, IHk. split.
      * intros [(c & d' & Hin & Hc & Hk)|Hk].
        -- exists c, d'. cbn [In]. auto.
        -- exists cls, d. cbn [In]. auto.
      * intros (c & d' & [<-|Hin] & Hc & Hk).
        -- right. congruence.
        -- left. eauto.
    + split; [exact IHn|]. intros k. rewrite IHk. split.
      * intros (c & d' & Hin & Hc & Hk). exists c, d'. cbn [In]. auto.
      * intros (c & d' & [<-|Hin] & Hc & Hk); [congruence | eauto].
Qed.

(** X13: the context menu of a class is the menu of its bases followed by
    the items of its own: no inherited item is dropped or replaced. *)
Theorem context_menu_inherited (cls : class_t Obj St)
  (bases : mro_t Obj St) :
  _context_menu_mapping (cls :: bases)
  = (_context_menu_mapping bases
     ++ match CONTEXT_MENU cls with Some items => items | None => [] end)%list.
Proof.
  unfold _context_menu_mapping.
  rewrite own_values_cons, concat_app.
  destruct (CONTEXT_MENU cls); cbn [concat]; now rewrite ?app_nil_r.
Qed.

Lemma class_attr_raises {V : Type} (mro : mro_t Obj St)
  (attr : class_t Obj St -> option V) e :
  class_attr mro attr = Raise e -> e = AttributeError.
Proof.
  induction mro as [|cls bases IH]; cbn [class_attr].
  - congruence.
  - destruct (attr cls); [discriminate | exact IH].
Qed.

(** X14: a property that no class of the hierarchy lists is ignored by
    [onChanged] and by [updateData]: no method runs, nothing is raised. *)
Theorem unlisted_property_ignored (self : mro_t Obj St)
  (host : Obj) (prop : string)
  (s : St) :
  (resolve ON_CHANGED prop self = None ->
   onChanged self host prop s = (Ok tt, s))
  /\ (resolve ON_UPDATE prop self = None ->
      updateData self host prop s = (Ok tt, s)).
Proof.
  split; intros Hnone.
  - unfold onChanged, _on_changed_mapping, getitem. cbv zeta.
    rewrite lookup_cumulative, Hnone. reflexivity.
  - unfold updateData, _on_update_mapping, getitem. cbv zeta.
    rewrite lookup_cumulative, Hnone. reflexivity.
Qed.

(** X15: for a listed property [onChanged] and [updateData] run the method
    named by the nearest class that lists it, and what the method does and
    raises, a [KeyError] included, is what the call does and raises; a name
    that is no method of the object raises [AttributeError]. *)
Theorem listed_property_dispatched (self : mro_t Obj St)
  (host : Obj) (prop m : string)
  (s : St) :
  (resolve ON_CHANGED prop self = Some m ->
   onChanged self host prop s
   = match getattr self m with
     | Ok handler => handler host s
     | Raise _ => (Raise AttributeError, s)
     end)
  /\ (resolve ON_UPDATE prop self = Some m ->
      updateData self host prop s
      = match getattr self m with
        | Ok handler => handler host s
        | Raise _ => (Raise AttributeError, s)
        end).
Proof.
  split; intros Hsome.
  - unfold onChanged, _on_changed_mapping, getitem. cbv zeta.
    rewrite lookup_cumulative, Hsome. cbn [bind result_monad].
    destruct (getattr self m) as [h|e] eqn:Hg; [reflexivity|].
    apply class_attr_raises in Hg as ->. reflexivity.
  - unfold updateData, _on_update_mapping, getitem. cbv zeta.
    rewrite lookup_cumulative, Hsome. cbn [bind result_monad].
    destruct (getattr self m) as [h|e] eqn:Hg; [reflexivity|].
    apply class_attr_raises in Hg as ->. reflexivity.
Qed.

(** X16: the default display mode is the first of the display modes, and
    asking for it when there are none raises [IndexError]. *)
Theorem default_display_mode (self : mro_t Obj St) (vobj : Obj)
  (modes : list string) :
  getDisplayModes self vobj = Ok modes ->
  match modes with
  | [] => getDefaultDisplayMode self = Raise IndexError
  | first :: _ =>
      getDefaultDisplayMode self = Ok first
      /\ In first modes
  end.
Proof.
  unfold getDisplayModes, getDefaultDisplayMode. intros ->.
  cbn [bind result_monad]. destruct modes; [reflexivity|].
  split; [reflexivity | now left].
Qed.

End Classes.

Section SetProperties.
Import RenderBase.
Context {Obj St : Type}.
Variable set_order : list string -> list string.
Hypothesis set_order_same : forall l n, In n (set_order l) <-> In n l.

Implicit Types (self : mro_t Obj St) (names present : list string).

Lemma in_lacking self present n :
  In n (lacking set_order self present)
  <-> In n (declared self)
      /\ ~ In n present.
Proof.
  unfold lacking. split.
  - intros Hin. apply (proj1 (set_order_same _ _)) in Hin.
    apply filter_In in Hin as [Hk Hp]. split; [exact Hk|].
    intros Hpres. apply negb_true_iff in Hp.
    assert (existsb (String.eqb n) present = true); [|congruence].
    apply existsb_exists. exists n.
    split; [exact Hpres | apply String.eqb_refl].
  - intros [Hk Hp]. apply (proj2 (set_order_same _ _)).
    apply filter_In. split; [exact Hk|]. apply negb_true_iff.
    destruct (existsb (String.eqb n) present) eqn:He; [|reflexivity].
    apply existsb_exists in He as (m & Hm & Heq).
    apply String.eqb_eq in Heq as <-. contradiction.
Qed.

Lemma add_property_calls self n calls c :
  add_property self n = Ok calls -> In c calls ->
  property_of c = Some n.
Proof.
  unfold add_property. destruct (class_attr self PROPERTIES);
    cbn [bind result_monad]; [|discriminate].
  destruct (getitem n a); cbn [bind result_monad]; [|discriminate].
  intros [= <-]. cbn [In]. intros [<-|[<-|[<-|[]]]]; reflexivity.
Qed.

Lemma add_properties_calls self names c n :
  In c (snd (add_properties self names)) ->
  property_of c = Some n -> In n names.
Proof.
  induction names as [|m names IH]; cbn [add_properties]; [intros []|].
  destruct (add_property self m) as [calls|e] eqn:Hadd; [|intros []].
  destruct (add_properties self names) as [r calls'] eqn:Hrest.
  cbn [snd] in *. intros Hin Hp. apply in_app_or in Hin as [Hin|Hin].
  - left. pose proof (add_property_calls _ _ _ _ Hadd Hin). congruence.
  - right. now apply IH.
Qed.

Lemma set_properties_calls self present c n :
  In c (snd (_set_properties set_order self present)) ->
  property_of c = Some n ->
  In n (lacking set_order self present).
Proof.
  unfold _set_properties.
  destruct (class_attr self NAMESPACE) as [ns|e].
  2:{ cbn. intros [<-|[]]. discriminate. }
  cbv zeta. fold (lacking set_order self present).
  pose proof (add_properties_calls self (lacking set_order self present) c n)
    as Hc.
  destruct (add_properties self (lacking set_order self present)) as [r calls].
  cbn [snd] in Hc.
  assert (Hin : In c ([SetFpo; SetModule ns; SetProxy]
                      ++ calls ++ [OnSetProperties])%list ->
                property_of c = Some n ->
                In n (lacking set_order self present)).
  { intros Hin Hp. apply in_app_or in Hin as [Hin|Hin].
    - cbn in Hin. destruct Hin as [<-|[<-|[<-|[]]]]; discriminate.
    - apply in_app_or in Hin as [Hin|Hin]; [auto|].
      cbn in Hin. destruct Hin as [<-|[]]. discriminate. }
  destruct r; cbn [snd]; [exact Hin|].
  intros Hin'. apply Hin. apply in_app_or in Hin' as [?|?];
    apply in_or_app; [left | right; apply in_or_app; left]; assumption.
Qed.

(** X17: [_set_properties] makes no call about a property the object
    already has; when the object has all the declared properties, it only
    registers itself and calls the hook. *)
Theorem present_properties_untouched self present :
  (forall c n,
     In c (snd (_set_properties set_order self present)) ->
     property_of c = Some n ->
     ~ In n present)
  /\ (forall namespace,
        class_attr self NAMESPACE = Ok namespace ->
        incl (declared self)
             present ->
        _set_properties set_order self present
        = (Ok tt, [SetFpo; SetModule namespace; SetProxy;
                   OnSetProperties])).
Proof.
  split.
  - intros c n Hin Hp.
    now apply (in_lacking self present n),
      (set_properties_calls self present c n).
  - intros ns Hns Hincl. unfold _set_properties. rewrite Hns. cbv zeta.
    fold (lacking set_order self present).
    assert (Hnil : lacking set_order self present = []).
    { destruct (lacking set_order self present) as [|n l] eqn:Hm;
        [reflexivity|].
      assert (Hin : In n (lacking set_order self present))
        by (rewrite Hm; now left).
      apply in_lacking in Hin as [Hk Hp]. elim Hp. now apply Hincl. }
    rewrite Hnil. reflexivity.
Qed.

(** The calls of the loop, when every name has its specification. *)
Lemma add_properties_trace self table names :
  class_attr self PROPERTIES = Ok table ->
  (forall n, In n names -> lookup n table <> None) ->
  exists added : list (string * Prop_),
    map fst added = names
    /\ (forall n spec, In (n, spec) added -> lookup n table = Some spec)
    /\ add_properties self names
       = (Ok tt,
          flat_map (fun a =>
                      [AddProperty (Type_ (snd a)) (fst a) (Group (snd a))
                         (Doc (snd a)) 0;
                       SetAttr (fst a) (Default (snd a));
                       SetEditorMode (fst a) (EditorMode (snd a))])
                   added).
Proof.
  intros Ht. induction names as [|m names IH]; intros Hall.
  - exists []. repeat split. intros n spec [].
  - destruct IH as (added & Hnames & Hspecs & Hcalls);
      [intros n Hn; apply Hall; now right|].
    destruct (lookup m table) as [spec|] eqn:Hm;
      [|elim (Hall m (or_introl eq_refl) Hm)].
    exists ((m, spec) :: added). split; [cbn [map fst]; now rewrite Hnames|].
    split.
    + intros n sp [[= <- <-]|Hin]; [exact Hm | now apply Hspecs].
    + cbn [add_properties]. unfold add_property, getitem.
      rewrite Ht. cbn [bind result_monad]. rewrite Hm.
      cbn [bind result_monad]. rewrite Hcalls. reflexivity.
Qed.

(** X18: when [self.PROPERTIES] specifies every declared property the
    object lacks, [_set_properties] succeeds, and what it does is, in this
    order: it registers itself; then for each such property, one after the
    other in the order of the set, it adds the property with its type,
    group and documentation, sets it to its default and gives it its editor
    mode; last it calls the hook. *)
Theorem missing_properties_added self present table namespace :
  class_attr self NAMESPACE = Ok namespace ->
  class_attr self PROPERTIES = Ok table ->
  (forall n,
     In n (declared self) ->
     ~ In n present -> lookup n table <> None) ->
  exists added : list (string * Prop_),
    map fst added = lacking set_order self present
    /\ (forall n,
          In n (map fst added) <-> In n (declared self) /\ ~ In n present)
    /\ (forall n spec, In (n, spec) added -> lookup n table = Some spec)
    /\ _set_properties set_order self present
       = (Ok tt,
          ([SetFpo; SetModule namespace; SetProxy]
           ++ flat_map (fun a =>
                          [AddProperty (Type_ (snd a)) (fst a)
                             (Group (snd a)) (Doc (snd a)) 0;
                           SetAttr (fst a) (Default (snd a));
                           SetEditorMode (fst a) (EditorMode (snd a))])
                       added
           ++ [OnSetProperties])%list).
Proof.
  intros Hns Ht Hall.
  destruct (add_properties_trace self table (lacking set_order self present)
              Ht) as (added & Hnames & Hspecs & Hcalls).
  { intros n Hm. apply in_lacking in Hm as [Hk Hp]. now apply Hall. }
  exists added. split; [exact Hnames|]. split.
  - intros n. rewrite Hnames. apply in_lacking.
  - split; [exact Hspecs|]. unfold _set_properties. rewrite Hns. cbv zeta.
    fold (lacking set_order self present). rewrite Hcalls. reflexivity.
Qed.

Lemma add_properties_key_error self table names :
  class_attr self PROPERTIES = Ok table ->
  (exists n, In n names /\ lookup n table = None) ->
  fst (add_properties self names) = Raise KeyError.
Proof.
  intros Ht. induction names as [|m names IH]; intros (n & Hin & Hn);
    [destruct Hin|].
  cbn [add_properties]. unfold add_property, getitem.
  rewrite Ht. cbn [bind result_monad].
  destruct (lookup m table) as [spec|] eqn:Hm; [|reflexivity].
  cbn [bind result_monad].
  destruct Hin as [->|Hin]; [congruence|].
  specialize (IH (ex_intro _ n (conj Hin Hn))).
  destruct (add_properties self names) as [r calls]. exact IH.
Qed.

(** X19: a declared property the object lacks and the nearest
    [PROPERTIES] table does not list (a base class declares it) makes
    [_set_properties] raise [KeyError]; the hook is then not called. *)
Theorem inherited_property_key_error self present table namespace n :
  class_attr self NAMESPACE = Ok namespace ->
  class_attr self PROPERTIES = Ok table ->
  In n (declared self) ->
  ~ In n present ->
  lookup n table = None ->
  let r := _set_properties set_order self present in
  fst r = Raise KeyError /\ ~ In OnSetProperties (snd r).
Proof.
  intros Hns Ht Hk Hp Hn r. subst r. unfold _set_properties.
  rewrite Hns. cbv zeta. fold (lacking set_order self present).
  pose proof (add_properties_key_error self table
                (lacking set_order self present) Ht) as Herr.
  pose proof (add_properties_calls self (lacking set_order self present)
                OnSetProperties) as Hcalls.
  assert (Hno : ~ In OnSetProperties
                    (snd (add_properties self
                            (lacking set_order self present)))).
  { clear. induction (lacking set_order self present) as [|m names IH];
      cbn [add_properties]; [intros []|].
    destruct (add_property self m) as [calls|e] eqn:Hadd; [|intros []].
    destruct (add_properties self names) as [r calls'].
    cbn [snd] in *. intros Hin. apply in_app_or in Hin as [Hin|Hin]; [|auto].
    pose proof (add_property_calls _ _ _ _ Hadd Hin). discriminate. }
  destruct (add_properties self (lacking set_order self present)) as [r calls].
  cbn [fst snd] in *. rewrite Herr.
  2:{ exists n. split; [now apply in_lacking | exact Hn]. }
  cbn [fst snd]. split; [reflexivity|].
  intros Hin. apply in_app_or in Hin as [Hin|Hin]; [|auto].
  cbn in Hin. destruct Hin as [?|[?|[?|[]]]]; discriminate.
Qed.

End SetProperties.

(** X20: [point_at] never assigns the placement: it returns at once when
    the axis is null, and raises [NameError] otherwise, [degrees] being no
    name of the module. *)
Theorem point_at_never_turns getAngle Rotation_ multiply placement point :
  let axis :=
    cross (multVec (Rotation placement) (Vector 0 0 (-1)))
          (Vector (x point - x (Base placement))%float
                  (y point - y (Base placement))%float
                  (z point - z (Base placement))%float) in
  RenderBase.point_at getAngle Rotation_ multiply placement point
  = (if (RenderBase.Length axis =? 0)%float
     then inl tt
     else inr (RenderBase.NameError "degrees"),
     placement).
Proof.
  intros axis. unfold RenderBase.point_at, RenderBase.truth. cbv zeta.
  fold axis. rewrite negb_involutive.
  destruct (RenderBase.Length axis =? 0)%float; reflexivity.
Qed.

(** ** The context menu *)

Section Menu.
Import RenderBase.
Context {Obj St : Type}.

(** The calls for the items whose action is a method of the object. *)
Lemma add_actions_app (self : mro_t Obj St) before rest :
  Forall (fun item => exists m, getattr self (action item) = Ok m) before ->
  add_actions self (before ++ rest)
  = (fst (add_actions self rest),
     (flat_map (fun item =>
                  [new_action item; Connect (action item); AddAction])
               before
      ++ snd (add_actions self rest))%list).
Proof.
  induction 1 as [|item before (m & Hm) _ IH]; cbn [app flat_map add_actions].
  - now destruct (add_actions self rest).
  - rewrite Hm, IH. reflexivity.
Qed.

(** X26: [setupContextMenu] gives the menu one action for each item of the
    context menu, the inherited items first, each connected to the method
    its item names; an item that names no attribute of the object raises
    [AttributeError], and the actions of the items before it stay in the
    menu. *)
Theorem context_menu_actions (self : mro_t Obj St) :
  let calls item := [new_action item; Connect (action item); AddAction] in
  let known item := exists m, getattr self (action item) = Ok m in
  (Forall known (_context_menu_mapping self) ->
   setupContextMenu self
   = (Ok tt, flat_map calls (_context_menu_mapping self)))
  /\ (forall before item after e,
        _context_menu_mapping self = (before ++ item :: after)%list ->
        Forall known before ->
        getattr self (action item) = Raise e ->
        setupContextMenu self
        = (Raise AttributeError,
           (flat_map calls before ++ [new_action item])%list)).
Proof.
  intros calls known. unfold setupContextMenu. split.
  - intros Hall.
    rewrite <- (app_nil_r (_context_menu_mapping self)) at 1.
    rewrite (add_actions_app self _ [] Hall). cbn [add_actions fst snd].
    now rewrite app_nil_r.
  - intros before item after e -> Hall Hraise.
    rewrite (add_actions_app self before (item :: after) Hall).
    cbn [add_actions]. rewrite Hraise. cbn [fst snd].
    apply class_attr_raises in Hraise as ->. reflexivity.
Qed.

End Menu.

(** ** Creation *)

Section Creation.
Import RenderBase.
Context `{FloatRepr} {Obj St Document : Type}.
Variable set_order : list string -> list string.

(** The text of the error about the view provider. *)
Lemma bad_viewprovider_text (d v : string) :
  format ("Bad {d}.VIEWPROVIDER value in '{d}' creation: '{v}'" ++ newline)
         [] [("d", VStr d); ("v", VStr v)]
  = Ok ("Bad " ++ d ++ ".VIEWPROVIDER value in '" ++ d ++ "' creation: '"
        ++ v ++ "'" ++ newline).
Proof.
  format_text. reflexivity.
Qed.

Lemma in_map_Init (s : step Document) (calls : list call) :
  In s (map Init calls) -> exists c, s = Init c.
Proof.
  intros Hin. apply in_map_iff in Hin as (c & <- & _). now exists c.
Qed.

(** X21: when the module of the namespace does not bind the name in
    [VIEWPROVIDER], [create] raises [ValueError] with a text that names the
    class twice and the value once; by then the object has been added to
    the document and initialised, and nothing is undone. *)
Theorem create_bad_viewprovider (cls : mro_t Obj St)
  (document ActiveDocument : option Document) modules present
  doc _type calls namespace names v :
  match document with Some d => Some d | None => ActiveDocument end
  = Some doc ->
  type cls = Ok _type ->
  _set_properties set_order cls present = (Ok tt, calls) ->
  class_attr cls NAMESPACE = Ok namespace ->
  lookup namespace modules = Some names ->
  class_attr cls VIEWPROVIDER = Ok v ->
  ~ In v names ->
  create set_order cls document ActiveDocument modules present
  = (inl (ValueErrorFrom
            ("Bad " ++ __name__ cls ++ ".VIEWPROVIDER value in '"
             ++ __name__ cls ++ "' creation: '" ++ v ++ "'" ++ newline)
            AttributeError),
     PreCreate :: AddObject doc "App::FeaturePython" _type
     :: map Init calls).
Proof.
  intros Hdoc Htype Hset Hns Hmod Hvp Hnot.
  unfold create. cbv zeta. rewrite Hdoc, Htype, Hset.
  unfold viewp_class, getitem. rewrite Hns. cbn [bind result_monad].
  rewrite Hmod, Hvp. cbn [bind result_monad].
  assert (Hex : existsb (String.eqb v) names = false).
  { apply not_true_is_false. intros Hex. apply existsb_exists in Hex.
    destruct Hex as (m & Hin & Heq). apply String.eqb_eq in Heq. now subst. }
  rewrite Hex, bad_viewprovider_text. reflexivity.
Qed.

(** X22: [create] succeeds exactly when there is an active document, the
    type, the properties and the view provider class are found; the object
    goes into [document] when one is given, and what is recomputed is the
    active document all the same. *)
Theorem create_succeeds (cls : mro_t Obj St)
  (document ActiveDocument : option Document) modules present trace :
  create set_order cls document ActiveDocument modules present
  = (inr tt, trace)
  <-> exists active _type calls v,
        ActiveDocument = Some active
        /\ type cls = Ok _type
        /\ _set_properties set_order cls present = (Ok tt, calls)
        /\ viewp_class cls modules = Ok v
        /\ trace
           = (PreCreate
              :: AddObject
                   (match document with Some d => d | None => active end)
                   "App::FeaturePython" _type
              :: map Init calls
              ++ [ViewProvider v; OnCreate; Recompute active])%list.
Proof.
  unfold create. cbv zeta. split.
  - destruct document as [d|], ActiveDocument as [a|]; try discriminate;
      (destruct (type cls) as [t|e]; [|discriminate]);
      (destruct (_set_properties set_order cls present) as [[[]|e] calls];
       [|discriminate]);
      (destruct (viewp_class cls modules) as [v|[]] eqn:Hv;
       try discriminate).
    + intros [= <-]. exists a, t, calls, v. cbn [app].
      rewrite <- app_assoc. repeat split; reflexivity.
    + destruct (class_attr cls VIEWPROVIDER) as [w|]; cbn [bind result_monad];
        [rewrite bad_viewprovider_text|]; discriminate.
    + destruct (class_attr cls VIEWPROVIDER) as [w|]; cbn [bind result_monad];
        [rewrite bad_viewprovider_text|]; discriminate.
    + intros [= <-]. exists a, t, calls, v. cbn [app].
      rewrite <- app_assoc. repeat split; reflexivity.
    + destruct (class_attr cls VIEWPROVIDER) as [w|]; cbn [bind result_monad];
        [rewrite bad_viewprovider_text|]; discriminate.
  - intros (a & t & calls & v & -> & Ht & Hs & Hv & ->).
    rewrite Ht, Hs, Hv. cbn [app]. rewrite <- app_assoc.
    destruct document; reflexivity.
Qed.

(** X23: [create] adds an object, once, exactly when a document is given or
    active and the type is found, whether it then fails or not: the object
    is a feature named by the type of the class, in the document given, or
    in the active one when none is given. *)
Theorem create_adds_object (cls : mro_t Obj St)
  (document ActiveDocument : option Document) modules present d t n :
  In (AddObject d t n)
     (snd (create set_order cls document ActiveDocument modules present))
  <-> match document with Some d' => Some d' | None => ActiveDocument end
      = Some d
      /\ t = "App::FeaturePython"
      /\ type cls = Ok n.
Proof.
  unfold create. cbv zeta.
  destruct (match document with Some d' => Some d' | None => ActiveDocument
            end) as [doc|].
  2:{ cbn. split; [intros [|[]]; discriminate | intros (? & _); discriminate]. }
  destruct (type cls) as [_type|e].
  2:{ cbn. split; [intros [|[]]; discriminate
                  | intros (_ & _ & ?); discriminate]. }
  destruct (_set_properties set_order cls present) as [r calls].
  assert (Hadded :
    forall rest,
      (forall s, In s rest -> forall d t n, s <> AddObject d t n) ->
      In (AddObject d t n)
         (PreCreate :: AddObject doc "App::FeaturePython" _type
          :: map Init calls ++ rest)%list
      <-> Some doc = Some d /\ t = "App::FeaturePython" /\ Ok _type = Ok n).
  { intros rest Hrest. split.
    - intros [Hin|[Hin|Hin]]; [discriminate| |].
      + injection Hin as <- <- <-. auto.
      + apply in_app_or in Hin as [Hin|Hin].
        * apply in_map_Init in Hin as (c & Hc). discriminate.
        * exfalso. exact (Hrest _ Hin _ _ _ eq_refl).
    - intros (Hd & -> & Hn). injection Hd as ->. injection Hn as ->.
      right. now left. }
  assert (Hnil : forall s : step Document,
            In s [] -> forall d t n, s <> AddObject d t n) by intros ? [].
  pose proof (Hadded [] Hnil) as Hfail. rewrite app_nil_r in Hfail.
  destruct r as [[]|e]; [|exact Hfail].
  destruct (viewp_class cls modules) as [v|e].
  - destruct ActiveDocument as [active|]; cbn [snd].
    + rewrite <- app_assoc. cbn [app]. apply Hadded.
      intros s [<-|[<-|[<-|[]]]]; discriminate.
    + apply Hadded. intros s [<-|[<-|[]]]; discriminate.
  - destruct e; try exact Hfail.
    destruct (class_attr cls VIEWPROVIDER) as [w|]; cbn [bind result_monad];
      [rewrite bad_viewprovider_text|]; exact Hfail.
Qed.

End Creation.

(** ** Pointing at a picked point *)

Section Callback.
Import RenderBase RenderBase.PointableViewProviderMixin.
Context `{FloatRepr} {handle : Type}.
Variable getAngle : vector_t -> vector_t -> float.
Variable Rotation_ : vector_t -> float -> rotation_t.
Variable multiply : rotation_t -> rotation_t -> rotation_t.
Variable translate : string -> string -> string.

Lemma point_at_placement placement point :
  snd (RenderBase.point_at getAngle Rotation_ multiply placement point)
  = placement.
Proof.
  unfold RenderBase.point_at. cbv zeta.
  match goal with |- context [if ?b then _ else _] => destruct b end;
    reflexivity.
Qed.

(** X24: the callback leaves the placement of the feature as it was. An
    event other than a press of the first button does nothing at all; a
    press of the first button prints at most one message and then removes
    the callback of [self.callback], once, whatever was picked and whether
    pointing raised or not. *)
Theorem callback_removed_once (callback : option handle) placement event_cb :
  let '(r, placement', calls) :=
    _point_at_cb getAngle Rotation_ multiply translate callback placement
                 event_cb in
  placement' = placement
  /\ match getState event_cb, getButton event_cb with
     | DOWN, BUTTON1 =>
         exists msgs,
           calls = (map Message msgs ++ [RemoveEventCallback callback])%list
           /\ (List.length msgs <= 1)%nat
     | _, _ => r = inl tt /\ calls = []
     end.
Proof.
  unfold _point_at_cb. cbv zeta.
  destruct (getState event_cb), (getButton event_cb);
    try (split; [reflexivity | split; reflexivity]).
  destruct (getPickedPoint event_cb) as [point|].
  - pose proof (point_at_placement placement point) as Hsame.
    destruct (RenderBase.point_at getAngle Rotation_ multiply placement point)
      as [[[]|e] placement']; cbn [snd] in Hsame; subst placement'.
    + destruct (format _ _ _) as [text|e].
      * split; [reflexivity|]. exists [text]. split; [reflexivity | cbn; lia].
      * split; [reflexivity|]. exists []. split; [reflexivity | cbn; lia].
    + split; [reflexivity|]. exists []. split; [reflexivity | cbn; lia].
  - split; [reflexivity|]. eexists [_]. split; [reflexivity | cbn; lia].
Qed.

(** The message about the new target. *)
Lemma pointing_text (point : vector_t) :
  format ("[Point at] Now pointing at ({0.x}, {0.y}, {0.z})" ++ newline)
         [vec point] []
  = Ok ("[Point at] Now pointing at (" ++ float_str (x point) ++ ", "
        ++ float_str (y point) ++ ", " ++ float_str (z point) ++ ")"
        ++ newline).
Proof.
  format_text. reflexivity.
Qed.

(** X25: with the messages left untranslated, a press of the first button
    ends in one of three ways. Nothing picked: the message about the target
    outside the geometry. A point for which the cross product of the
    current and the new direction is null: the message that gives the
    coordinates of the point. Any other point: [NameError], and no
    message. *)
Theorem left_press_outcome (callback : option handle) placement event_cb :
  (forall text, translate "Render" text = text) ->
  getState event_cb = DOWN ->
  getButton event_cb = BUTTON1 ->
  _point_at_cb getAngle Rotation_ multiply translate callback placement
               event_cb
  = match getPickedPoint event_cb with
    | None =>
        (inl tt, placement,
         [Message ("[Point at] Target outside geometry -- Aborting"
                   ++ newline);
          RemoveEventCallback callback])
    | Some point =>
        let axis :=
          cross (multVec (Rotation placement) (Vector 0 0 (-1)))
                (Vector (x point - x (Base placement))%float
                        (y point - y (Base placement))%float
                        (z point - z (Base placement))%float) in
        if (RenderBase.Length axis =? 0)%float
        then
          (inl tt, placement,
           [Message ("[Point at] Now pointing at (" ++ float_str (x point)
                     ++ ", " ++ float_str (y point) ++ ", "
                     ++ float_str (z point) ++ ")" ++ newline);
            RemoveEventCallback callback])
        else
          (inr (NameError "degrees"), placement,
           [RemoveEventCallback callback])
    end.
Proof.
  intros Htr Hstate Hbutton. unfold _point_at_cb. cbv zeta.
  rewrite Hstate, Hbutton, !Htr.
  destruct (getPickedPoint event_cb) as [point|]; [|reflexivity].
  unfold RenderBase.point_at, RenderBase.truth. cbv zeta.
  rewrite negb_involutive.
  match goal with |- context [if ?b then _ else _] => destruct b end.
  - rewrite pointing_text. reflexivity.
  - reflexivity.
Qed.


End Callback.

(** ** The further properties on the sample inputs *)

Lemma write_object_outcome_witness :
  ((3 <= List.length Sample.grey)%nat
   /\ Forall (fun f => (3 <= List.length f)%nat)
             (snd (Topology Sample.triangle)))
  /\ (exists out,
        write_object (H := shortest_repr)
          Sample.box Sample.triangle Sample.grey 1 = Ok out)
  /\ ~ ((3 <= List.length [0.5; 0.5]%float)%nat
        /\ Forall (fun f => (3 <= List.length f)%nat)
                  (snd (Topology Sample.triangle)))
  /\ write_object (H := shortest_repr)
       Sample.box Sample.triangle [0.5; 0.5]%float 1 = Raise IndexError.
Proof.
  assert (Hok : (3 <= List.length Sample.grey)%nat
                /\ Forall (fun f => (3 <= List.length f)%nat)
                          (snd (Topology Sample.triangle)))
    by (split; [cbn; lia | repeat constructor]).
  assert (Hno : ~ ((3 <= List.length [0.5; 0.5]%float)%nat
                   /\ Forall (fun f => (3 <= List.length f)%nat)
                             (snd (Topology Sample.triangle))))
    by (cbn; intros [Hc _]; lia).
  split; [exact Hok|]. split.
  - exact (proj1 (write_object_outcome (H := shortest_repr)
                    Sample.box Sample.triangle Sample.grey 1) Hok).
  - split; [exact Hno|].
    exact (proj2 (write_object_outcome (H := shortest_repr)
                    Sample.box Sample.triangle [0.5; 0.5]%float 1) Hno).
Defined.

Lemma light_outcome_witness :
  (3 <= List.length Sample.grey)%nat
  /\ (exists out,
        write_arealight (H := shortest_repr)
          "Lamp" Sample.placement 2 3 Sample.grey 0.5 = Ok out)
  /\ (List.length [0.5]%float < 3)%nat
  /\ write_pointlight (H := shortest_repr)
       Sample.box Sample.origin [0.5]%float 0.5 = Raise IndexError.
Proof.
  assert (Hc : (3 <= List.length Sample.grey)%nat) by (cbn; lia).
  assert (Hs : (List.length [0.5]%float < 3)%nat) by (cbn; lia).
  split; [exact Hc|]. split.
  - exact (proj2 (proj1 (light_outcome (H := shortest_repr)
                           Sample.box Sample.origin "Lamp" Sample.placement
                           2 3 Sample.grey 0.5) Hc)).
  - split; [exact Hs|].
    exact (proj1 (proj2 (light_outcome (H := shortest_repr)
                           Sample.box Sample.origin "Lamp" Sample.placement
                           2 3 [0.5]%float 0.5) Hs)).
Defined.

Lemma camera_placement_witness :
  plain "Camera" = true
  /\ exists out,
       write_camera (H := shortest_repr)
         (Vector 1 2 3) Sample.quarter_turn Sample.origin Sample.origin
         "Camera" = Ok out
       /\ attr "transform" "translate" (read out) = Some "1.0 2.0 3.0".
Proof.
  assert (Hn : plain "Camera" = true) by reflexivity.
  split; [exact Hn|].
  destruct (camera_placement (H := shortest_repr)
              (Vector 1 2 3) Sample.quarter_turn Sample.origin Sample.origin
              "Camera" Hn)
    as (out & Hout & Ht & _).
  exists out. split; [exact Hout|]. rewrite Ht. vm_compute. reflexivity.
Defined.

Lemma mesh_points_listed_witness :
  plain (Name Sample.box) = true
  /\ (3 <= List.length Sample.grey)%nat
  /\ Forall (fun f => (3 <= List.length f)%nat) (snd (Topology Sample.quad))
  /\ exists out,
       write_object (H := shortest_repr)
         Sample.box Sample.quad Sample.grey 1 = Ok out
       /\ attr "mesh" "P" (read out)
          = Some "0.0 0.0 0.0  1.0 0.0 0.0  1.0 1.0 0.0  0.0 1.0 0.0"
       /\ attr "diffuse_bsdf" "color" (read out) = Some "0.5, 0.5, 0.5".
Proof.
  assert (Hn : plain (Name Sample.box) = true) by reflexivity.
  assert (Hc : (3 <= List.length Sample.grey)%nat) by (cbn; lia).
  assert (Hf : Forall (fun f => (3 <= List.length f)%nat)
                      (snd (Topology Sample.quad)))
    by (repeat constructor).
  split; [exact Hn|]. split; [exact Hc|]. split; [exact Hf|].
  destruct (mesh_points_listed (H := shortest_repr)
              Sample.box Sample.quad Sample.grey 1 Hn Hc Hf)
    as (out & Hout & HP & Hd).
  exists out. split; [exact Hout|]. rewrite HP, Hd. vm_compute. auto.
Defined.

Lemma state_names_declared_shader_witness :
  plain (Name Sample.box) = true
  /\ plain "Lamp" = true
  /\ (3 <= List.length Sample.grey)%nat
  /\ Forall (fun f => (3 <= List.length f)%nat)
            (snd (Topology Sample.triangle))
  /\ (exists out,
        write_object (H := shortest_repr)
          Sample.box Sample.triangle Sample.grey 1 = Ok out
        /\ attr "state" "shader" (read out) = Some "Box_mat")
  /\ (exists out,
        write_arealight (H := shortest_repr)
          "Lamp" Sample.placement 2 3 Sample.grey 0.5 = Ok out
        /\ attr "state" "shader" (read out) = Some "Lamp_shader").
Proof.
  assert (Hb : plain (Name Sample.box) = true) by reflexivity.
  assert (Hn : plain "Lamp" = true) by reflexivity.
  assert (Hc : (3 <= List.length Sample.grey)%nat) by (cbn; lia).
  assert (Hf : Forall (fun f => (3 <= List.length f)%nat)
                      (snd (Topology Sample.triangle)))
    by (repeat constructor).
  split; [exact Hb|]. split; [exact Hn|]. split; [exact Hc|].
  split; [exact Hf|].
  destruct (state_names_declared_shader (H := shortest_repr)
              Sample.box Sample.triangle Sample.box Sample.origin "Lamp"
              Sample.placement 2 3 Sample.grey 1 0.5 Hb Hb Hn Hc Hf)
    as ((out1 & Hout1 & Hn1 & Hs1) & _ & (out3 & Hout3 & Hn3 & Hs3)).
  split.
  - exists out1. split; [exact Hout1|]. rewrite Hs1, Hn1. reflexivity.
  - exists out3. split; [exact Hout3|]. rewrite Hs3, Hn3. reflexivity.
Defined.

Lemma pointlight_position_witness :
  plain (Name Sample.box) = true
  /\ (3 <= List.length Sample.grey)%nat
  /\ exists out,
       write_pointlight (H := shortest_repr)
         Sample.box (Vector 1 2 3) Sample.grey 0.5 = Ok out
       /\ all "light" (read out)
          = [[("type", "point"); ("co", "1.0 2.0 3.0");
              ("strength", "1 1 1")]].
Proof.
  assert (Hn : plain (Name Sample.box) = true) by reflexivity.
  assert (Hc : (3 <= List.length Sample.grey)%nat) by (cbn; lia).
  split; [exact Hn|]. split; [exact Hc|].
  destruct (pointlight_position (H := shortest_repr)
              Sample.box (Vector 1 2 3) Sample.grey 0.5 Hn Hc)
    as (out & Hout & Hl).
  exists out. split; [exact Hout|]. rewrite Hl. vm_compute. reflexivity.
Defined.

Lemma arealight_extent_witness :
  plain "Lamp" = true
  /\ (3 <= List.length Sample.grey)%nat
  /\ exists out,
       write_arealight (H := shortest_repr)
         "Lamp" Sample.placement 2 3 Sample.grey 0.5 = Ok out
       /\ attr "light" "co" (read out) = Some "1.0 2.0 3.0"
       /\ attr "light" "sizeu" (read out) = Some "2.0"
       /\ attr "light" "sizev" (read out) = Some "3.0".
Proof.
  assert (Hn : plain "Lamp" = true) by reflexivity.
  assert (Hc : (3 <= List.length Sample.grey)%nat) by (cbn; lia).
  split; [exact Hn|]. split; [exact Hc|].
  destruct (arealight_extent (H := shortest_repr)
              "Lamp" Sample.placement 2 3 Sample.grey 0.5 Hn Hc)
    as (out & Hout & _ & Hco & Hu & Hv & _).
  exists out. split; [exact Hout|]. rewrite Hco, Hu, Hv. vm_compute. auto.
Defined.

Lemma unlisted_property_ignored_witness :
  RenderBase.resolve RenderBase.ON_CHANGED "Label" Hierarchy.spot_mro = None
  /\ RenderBase.onChanged Hierarchy.spot_mro tt "Label" [] = (Ok tt, [])
  /\ RenderBase.resolve RenderBase.ON_UPDATE "Label" Hierarchy.spot_mro = None
  /\ RenderBase.updateData Hierarchy.spot_mro tt "Label" [] = (Ok tt, []).
Proof.
  assert (Hc : RenderBase.resolve RenderBase.ON_CHANGED "Label"
                 Hierarchy.spot_mro = None) by reflexivity.
  assert (Hu : RenderBase.resolve RenderBase.ON_UPDATE "Label"
                 Hierarchy.spot_mro = None) by reflexivity.
  split; [exact Hc|]. split.
  - exact (proj1 (unlisted_property_ignored Hierarchy.spot_mro tt "Label" [])
             Hc).
  - split; [exact Hu|].
    exact (proj2 (unlisted_property_ignored Hierarchy.spot_mro tt "Label" [])
             Hu).
Defined.

Lemma listed_property_dispatched_witness :
  RenderBase.resolve RenderBase.ON_UPDATE "Power" Hierarchy.spot_mro
  = Some "_update_beam"
  /\ RenderBase.updateData Hierarchy.spot_mro tt "Power" []
     = (Ok tt, ["spot beam"])
  /\ RenderBase.resolve RenderBase.ON_UPDATE "Color" Hierarchy.spot_mro
     = Some "_update_color"
  /\ RenderBase.updateData Hierarchy.spot_mro tt "Color" []
     = (Raise KeyError, ["light color"])
  /\ RenderBase.resolve RenderBase.ON_UPDATE "Radius" Hierarchy.spot_mro
     = Some "_update_radius"
  /\ RenderBase.updateData Hierarchy.spot_mro tt "Radius" []
     = (Raise AttributeError, [])
  /\ RenderBase.resolve RenderBase.ON_CHANGED "Visibility" Hierarchy.spot_mro
     = Some "_change_visibility"
  /\ RenderBase.onChanged Hierarchy.spot_mro tt "Visibility" []
     = (Ok tt, ["light visibility"]).
Proof.
  assert (Hp : RenderBase.resolve RenderBase.ON_UPDATE "Power"
                 Hierarchy.spot_mro = Some "_update_beam") by reflexivity.
  assert (Hc : RenderBase.resolve RenderBase.ON_UPDATE "Color"
                 Hierarchy.spot_mro = Some "_update_color") by reflexivity.
  assert (Hr : RenderBase.resolve RenderBase.ON_UPDATE "Radius"
                 Hierarchy.spot_mro = Some "_update_radius") by reflexivity.
  assert (Hv : RenderBase.resolve RenderBase.ON_CHANGED "Visibility"
                 Hierarchy.spot_mro = Some "_change_visibility")
    by reflexivity.
  split; [exact Hp|]. split.
  { rewrite (proj2 (listed_property_dispatched Hierarchy.spot_mro tt "Power"
                      "_update_beam" []) Hp). reflexivity. }
  split; [exact Hc|]. split.
  { rewrite (proj2 (listed_property_dispatched Hierarchy.spot_mro tt "Color"
                      "_update_color" []) Hc). reflexivity. }
  split; [exact Hr|]. split.
  { rewrite (proj2 (listed_property_dispatched Hierarchy.spot_mro tt "Radius"
                      "_update_radius" []) Hr). reflexivity. }
  split; [exact Hv|].
  rewrite (proj1 (listed_property_dispatched Hierarchy.spot_mro tt
                    "Visibility" "_change_visibility" []) Hv).
  reflexivity.
Defined.

Lemma default_display_mode_witness :
  RenderBase.getDisplayModes (tl Hierarchy.spot_mro) tt = Ok ["Default"]
  /\ RenderBase.getDefaultDisplayMode (tl Hierarchy.spot_mro) = Ok "Default"
  /\ RenderBase.getDisplayModes Hierarchy.spot_mro tt = Ok []
  /\ RenderBase.getDefaultDisplayMode Hierarchy.spot_mro = Raise IndexError.
Proof.
  assert (Hl : RenderBase.getDisplayModes (tl Hierarchy.spot_mro) tt
               = Ok ["Default"]) by reflexivity.
  assert (Hs : RenderBase.getDisplayModes Hierarchy.spot_mro tt = Ok [])
    by reflexivity.
  split; [exact Hl|]. split.
  - exact (proj1 (default_display_mode (tl Hierarchy.spot_mro) tt
                    ["Default"] Hl)).
  - split; [exact Hs|].
    exact (default_display_mode Hierarchy.spot_mro tt [] Hs).
Defined.

Lemma rev_order_same (l : list string) (n : string) :
  In n (rev l) <-> In n l.
Proof.
  split; intros Hin; [apply in_rev | apply in_rev in Hin]; exact Hin.
Defined.

Lemma present_properties_untouched_witness :
  RenderBase.class_attr Hierarchy.camera_mro RenderBase.NAMESPACE
  = Ok "Render"
  /\ incl (RenderBase.declared Hierarchy.camera_mro)
          ["Label"; "Placement"; "Projection"; "AspectRatio"]
  /\ RenderBase._set_properties (@rev string) Hierarchy.camera_mro
       ["Label"; "Placement"; "Projection"; "AspectRatio"]
     = (Ok tt,
        [RenderBase.SetFpo; RenderBase.SetModule "Render";
         RenderBase.SetProxy; RenderBase.OnSetProperties]).
Proof.
  assert (Hns : RenderBase.class_attr Hierarchy.camera_mro
                  RenderBase.NAMESPACE = Ok "Render") by reflexivity.
  assert (Hincl : incl (RenderBase.declared Hierarchy.camera_mro)
                       ["Label"; "Placement"; "Projection"; "AspectRatio"]).
  { intros k Hk. vm_compute in Hk. destruct Hk as [<-|[<-|[<-|[]]]];
      cbn; auto. }
  split; [exact Hns|]. split; [exact Hincl|].
  exact (proj2 (present_properties_untouched (@rev string) rev_order_same
                  Hierarchy.camera_mro
                  ["Label"; "Placement"; "Projection"; "AspectRatio"])
           "Render" Hns Hincl).
Defined.

Lemma missing_properties_added_witness :
  RenderBase._set_properties (@rev string) Hierarchy.camera_mro
    ["Label"; "Placement"]
  = (Ok tt,
     [RenderBase.SetFpo; RenderBase.SetModule "Render"; RenderBase.SetProxy;
      RenderBase.AddProperty "App::PropertyFloat" "AspectRatio" "Camera"
        "Ratio width/height" 0;
      RenderBase.SetAttr "AspectRatio" (VFloat 1);
      RenderBase.SetEditorMode "AspectRatio" 2;
      RenderBase.AddProperty "App::PropertyEnumeration" "Projection"
        "Camera" "Type of projection" 0;
      RenderBase.SetAttr "Projection" (VStr "Perspective");
      RenderBase.SetEditorMode "Projection" 0;
      RenderBase.OnSetProperties]).
Proof.
  assert (Hns : RenderBase.class_attr Hierarchy.camera_mro
                  RenderBase.NAMESPACE = Ok "Render") by reflexivity.
  assert (Ht : RenderBase.class_attr Hierarchy.camera_mro
                 RenderBase.PROPERTIES
               = Ok (match RenderBase.PROPERTIES Hierarchy.Camera with
                     | Some t => t
                     | None => []
                     end)) by reflexivity.
  destruct (missing_properties_added (@rev string) rev_order_same
              Hierarchy.camera_mro ["Label"; "Placement"] _ "Render" Hns Ht)
    as (added & Hnames & _ & Hspecs & Hcalls).
  { intros n Hk Hp. vm_compute in Hk.
    destruct Hk as [<-|[<-|[<-|[]]]];
      [elim Hp; cbn; auto | discriminate | discriminate]. }
  rewrite Hcalls. vm_compute in Hnames.
  destruct added as [|[n1 s1] [|[n2 s2] [|more]]]; try discriminate.
  injection Hnames as -> ->.
  pose proof (Hspecs _ _ (or_introl eq_refl)) as H1.
  pose proof (Hspecs _ _ (or_intror (or_introl eq_refl))) as H2.
  vm_compute in H1, H2. injection H1 as <-. injection H2 as <-.
  reflexivity.
Defined.

Lemma inherited_property_key_error_witness :
  let r := RenderBase._set_properties (@rev string) Hierarchy.camera_mro
             ["Label"] in
  In "Placement"
     (RenderBase.declared Hierarchy.camera_mro)
  /\ fst r = Raise KeyError
  /\ ~ In RenderBase.OnSetProperties (snd r).
Proof.
  intros r.
  assert (Hns : RenderBase.class_attr Hierarchy.camera_mro
                  RenderBase.NAMESPACE = Ok "Render") by reflexivity.
  assert (Ht : RenderBase.class_attr Hierarchy.camera_mro
                 RenderBase.PROPERTIES
               = Ok (match RenderBase.PROPERTIES Hierarchy.Camera with
                     | Some t => t
                     | None => []
                     end)) by reflexivity.
  assert (Hk : In "Placement"
                  (RenderBase.declared Hierarchy.camera_mro))
    by (vm_compute; auto).
  assert (Hp : ~ In "Placement" ["Label"])
    by (cbn; intros [H|[]]; discriminate).
  split; [exact Hk|].
  exact (inherited_property_key_error (@rev string) rev_order_same
           Hierarchy.camera_mro ["Label"] _ "Render" "Placement"
           Hns Ht Hk Hp eq_refl).
Defined.

Lemma create_bad_viewprovider_witness :
  RenderBase._set_properties (@rev string) Hierarchy.camera_mro
    ["Label"; "Placement"]
  = (Ok tt,
     snd (RenderBase._set_properties (@rev string) Hierarchy.camera_mro
            ["Label"; "Placement"]))
  /\ ~ In "ViewProviderCamera" ["Camera"; "PointLight"]
  /\ RenderBase.create (H := shortest_repr) (@rev string)
       Hierarchy.camera_mro (Some "Scene") (Some "Sketch")
       [("Render", ["Camera"; "PointLight"])] ["Label"; "Placement"]
     = (inl (RenderBase.ValueErrorFrom
               ("Bad Camera.VIEWPROVIDER value in 'Camera' creation: "
                ++ "'ViewProviderCamera'" ++ newline)
               AttributeError),
        RenderBase.PreCreate
        :: RenderBase.AddObject "Scene" "App::FeaturePython" "Camera"
        :: map RenderBase.Init
             (snd (RenderBase._set_properties (@rev string)
                     Hierarchy.camera_mro ["Label"; "Placement"]))).
Proof.
  assert (Hs : RenderBase._set_properties (@rev string) Hierarchy.camera_mro
                 ["Label"; "Placement"]
               = (Ok tt,
                  snd (RenderBase._set_properties (@rev string)
                         Hierarchy.camera_mro ["Label"; "Placement"])))
    by reflexivity.
  assert (Hn : ~ In "ViewProviderCamera" ["Camera"; "PointLight"])
    by (cbn; intros [?|[?|[]]]; discriminate).
  split; [exact Hs|]. split; [exact Hn|].
  exact (create_bad_viewprovider (H := shortest_repr) (@rev string)
           Hierarchy.camera_mro (Some "Scene") (Some "Sketch")
           [("Render", ["Camera"; "PointLight"])] ["Label"; "Placement"]
           "Scene" "Camera" _ "Render" ["Camera"; "PointLight"]
           "ViewProviderCamera" eq_refl eq_refl Hs eq_refl eq_refl eq_refl
           Hn).
Defined.

Lemma left_press_outcome_witness :
  let cb :=
    RenderBase.PointableViewProviderMixin._point_at_cb (H := shortest_repr)
      (fun _ _ => 0%float) (fun _ _ => Sample.quarter_turn) (fun r _ => r)
      (fun _ text => text) (Some 7%nat) Sample.placement in
  let press picked :=
    {| RenderBase.PointableViewProviderMixin.getState :=
         RenderBase.PointableViewProviderMixin.DOWN;
       RenderBase.PointableViewProviderMixin.getButton :=
         RenderBase.PointableViewProviderMixin.BUTTON1;
       RenderBase.PointableViewProviderMixin.getPickedPoint := picked |} in
  cb (press (Some (Vector 1 2 (-2))))
  = (inl tt, Sample.placement,
     [RenderBase.PointableViewProviderMixin.Message
        ("[Point at] Now pointing at (1.0, 2.0, -2.0)" ++ newline);
      RenderBase.PointableViewProviderMixin.RemoveEventCallback
        (Some 7%nat)])
  /\ cb (press (Some Sample.origin))
     = (inr (RenderBase.NameError "degrees"), Sample.placement,
        [RenderBase.PointableViewProviderMixin.RemoveEventCallback
           (Some 7%nat)])
  /\ cb (press None)
     = (inl tt, Sample.placement,
        [RenderBase.PointableViewProviderMixin.Message
           ("[Point at] Target outside geometry -- Aborting" ++ newline);
         RenderBase.PointableViewProviderMixin.RemoveEventCallback
           (Some 7%nat)]).
Proof.
  intros cb press. subst cb.
  pose proof (fun picked =>
    left_press_outcome (H := shortest_repr) (fun _ _ => 0%float)
      (fun _ _ => Sample.quarter_turn) (fun r _ => r)
      (fun _ text => text) (Some 7%nat) Sample.placement (press picked)
      (fun _ => eq_refl) eq_refl eq_refl) as outcome.
  split; [|split]; rewrite outcome; vm_compute; reflexivity.
Defined.

Lemma context_menu_actions_witness :
  RenderBase.setupContextMenu (tl Hierarchy.spot_mro)
  = (Ok tt,
     [RenderBase.NewAction None "Point at..."; RenderBase.Connect "point_at";
      RenderBase.AddAction])
  /\ RenderBase.setupContextMenu Hierarchy.spot_mro
     = (Raise AttributeError,
        [RenderBase.NewAction None "Point at...";
         RenderBase.Connect "point_at"; RenderBase.AddAction;
         RenderBase.NewAction (Some "narrow.svg") "Narrow"]).
Proof.
  split.
  - refine (proj1 (context_menu_actions (tl Hierarchy.spot_mro)) _).
    repeat constructor. eexists. reflexivity.
  - refine (proj2 (context_menu_actions Hierarchy.spot_mro)
              [_] _ [] AttributeError eq_refl _ eq_refl).
    repeat constructor. eexists. reflexivity.
Defined.


(** ** Two runs of [create]

    A camera for a new object that has no placement yet: the properties of
    the camera's own table are added, then the property of the mixin is not
    found. *)
Example create_camera_fails :
  RenderBase.create (H := shortest_repr) (@rev string)
    Hierarchy.camera_mro None (Some "Scene")
    [("Render", ["Camera"; "ViewProviderCamera"])] ["Label"]
  = (inl (RenderBase.Raised KeyError),
     [RenderBase.PreCreate;
      RenderBase.AddObject "Scene" "App::FeaturePython" "Camera";
      RenderBase.Init RenderBase.SetFpo;
      RenderBase.Init (RenderBase.SetModule "Render");
      RenderBase.Init RenderBase.SetProxy;
      RenderBase.Init
        (RenderBase.AddProperty "App::PropertyFloat" "AspectRatio"
           "Camera" "Ratio width/height" 0);
      RenderBase.Init (RenderBase.SetAttr "AspectRatio" (VFloat 1));
      RenderBase.Init (RenderBase.SetEditorMode "AspectRatio" 2);
      RenderBase.Init
        (RenderBase.AddProperty "App::PropertyEnumeration" "Projection"
           "Camera" "Type of projection" 0);
      RenderBase.Init (RenderBase.SetAttr "Projection" (VStr "Perspective"));
      RenderBase.Init (RenderBase.SetEditorMode "Projection" 0)]).
Proof. reflexivity. Qed.

(** A camera created in a document that is not the active one. *)
Example create_camera_elsewhere :
  RenderBase.create (H := shortest_repr) (@rev string)
    Hierarchy.camera_mro (Some "Sketch") (Some "Scene")
    [("Render", ["Camera"; "ViewProviderCamera"])] ["Label"; "Placement"]
  = (inr tt,
     [RenderBase.PreCreate;
      RenderBase.AddObject "Sketch" "App::FeaturePython" "Camera";
      RenderBase.Init RenderBase.SetFpo;
      RenderBase.Init (RenderBase.SetModule "Render");
      RenderBase.Init RenderBase.SetProxy;
      RenderBase.Init
        (RenderBase.AddProperty "App::PropertyFloat" "AspectRatio"
           "Camera" "Ratio width/height" 0);
      RenderBase.Init (RenderBase.SetAttr "AspectRatio" (VFloat 1));
      RenderBase.Init (RenderBase.SetEditorMode "AspectRatio" 2);
      RenderBase.Init
        (RenderBase.AddProperty "App::PropertyEnumeration" "Projection"
           "Camera" "Type of projection" 0);
      RenderBase.Init (RenderBase.SetAttr "Projection" (VStr "Perspective"));
      RenderBase.Init (RenderBase.SetEditorMode "Projection" 0);
      RenderBase.Init RenderBase.OnSetProperties;
      RenderBase.ViewProvider "ViewProviderCamera";
      RenderBase.OnCreate;
      RenderBase.Recompute "Scene"]).
Proof. reflexivity. Qed.
